(** * The user account model of [models/user/User.js]

    A shallow embedding of the static operations of the Mongoose model
    [User] ([findUser], [getUserById], [createUser], [completeUser],
    [updateUser]) and of the handler that mails the updates, and the
    properties of the account lifecycle proved about them.

    The operations are written in continuation style: each one reports
    through [callback(err, result)].  Here an operation is a function from
    its arguments and the collection to the collection afterwards and the
    list of callback invocations it makes, in order; an exception that
    escapes the operation is an event of that list as well.

    One call runs at a time, so a document read is still there when it is
    written.  Every database access and every collaborator answers once; a
    database access may fail for a reason of its own, and a write that fails
    leaves the collection as it was. *)

From Stdlib Require Import ZArith NArith Ascii.
From stdpp Require Import gmap strings list fin_maps pretty.

Set Warnings "-register-all".
Local Open Scope Z_scope.

(** ** JavaScript values *)

(** A JavaScript string is the sequence of its UTF-16 code units, so that
    [length] is the [.length] of the source. *)
Abbreviation jsstring := (list N).

(** The string of an ASCII literal of the source. *)
Fixpoint lit (s : string) : jsstring :=
  match s with
  | EmptyString => []
  | String a r => N_of_ascii a :: lit r
  end.

(** The values a parsed request body, a session or a stored document can
    hold.  [JNum z] is the Number that the integer [z] denotes: [z] itself
    up to 2^53 in magnitude, the nearest double-precision value beyond;
    fractional numbers and NaN are left out.  No value is a function, so a
    property an object has of its own is never callable. *)
Inductive JSValue :=
| JUndefined
| JNull
| JBool (b : bool)
| JNum (z : Z)
| JStr (s : jsstring)
| JArr (l : list JSValue)
| JObj (o : gmap string JSValue).

(** Documents and plain objects: property name to value. *)
Abbreviation object := (gmap string JSValue).

Module JS.

(** [!v] is [negb (truthy v)]. *)
Definition truthy (v : JSValue) : bool :=
  match v with
  | JUndefined | JNull => false
  | JBool b => b
  | JNum z => negb (z =? 0)
  | JStr s => negb (bool_decide (s = []))
  | JArr _ | JObj _ => true
  end.

(** [typeof v == 'object'] *)
Definition is_object (v : JSValue) : bool :=
  match v with
  | JNull | JArr _ | JObj _ => true
  | _ => false
  end.

(** [typeof v == 'string'] *)
Definition is_string (v : JSValue) : bool :=
  match v with
  | JStr _ => true
  | _ => false
  end.

(** Member access [v.k] for the property names the model reads ([email],
    [password], [code], [name], [phone], [gender], [birth_year], [country],
    [city], [town], [completed], [alpha2_code]): none of them is inherited
    from a prototype, so only an own property of a plain object answers.
    The source never reads a member of [null] or [undefined]: a truthiness
    test comes first everywhere. *)
Definition get (v : JSValue) (k : string) : JSValue :=
  match v with
  | JObj o => default JUndefined (o !! k)
  | _ => JUndefined
  end.

(** *** Numbers as strings *)

(** The Number an integer [z ≥ 0] denotes: [z] itself below 2^53, and from
    there on the nearest double-precision value, a tie going to the even
    significand; [None] is Infinity. *)
Definition to_Number (z : Z) : option Z :=
  if z <? 2 ^ 53 then Some z
  else
    let ulp := 2 ^ (Z.log2 z - 52) in
    let q := z / ulp in
    let r := z mod ulp in
    let q := if (ulp <? 2 * r) || ((2 * r =? ulp) && Z.odd q) then q + 1 else q in
    if 2 ^ 1024 <=? q * ulp then None else Some (q * ulp).

(** Of the two multiples of [p] around the Number [x], the one that denotes
    [x], and the nearer one (the even one in a tie) when both do. *)
Definition nearer (x p : Z) : option Z :=
  let below := x / p * p in
  let above := below + p in
  match bool_decide (to_Number below = Some x),
        bool_decide (to_Number above = Some x) with
  | true, true =>
      Some (if (x - below <? above - x)
               || ((x - below =? above - x) && Z.even (x / p))
            then below else above)
  | true, false => Some below
  | false, true => Some above
  | false, false => None
  end.

(** The numeral with the fewest significant digits that denotes the Number
    [x]; 17 digits are always enough. *)
Definition shortest (x : Z) : Z :=
  let n := Z.of_nat (String.length (pretty x)) in
  default x (head (omap (λ k, nearer x (10 ^ (n - k)))
                     (seqZ 1 (Z.min 17 (n - 1))))).

Fixpoint drop_zeros (s : jsstring) : jsstring :=
  match s with
  | 48%N :: r => drop_zeros r
  | _ => s
  end.

(** [Number.prototype.toString] on the Number of [z]: its shortest numeral,
    written out up to 21 digits and with an exponent beyond. *)
Definition Number_toString (z : Z) : jsstring :=
  (if z <? 0 then lit "-" else [])
  ++ match to_Number (Z.abs z) with
     | None => lit "Infinity"
     | Some x =>
         let digits := lit (pretty (shortest x)) in
         let n := Z.of_nat (length digits) in
         if n <=? 21 then digits
         else
           match reverse (drop_zeros (reverse digits)) with
           | [] => []
           | [d] => d :: lit "e+" ++ lit (pretty (n - 1))
           | d :: r => d :: 46%N :: r ++ lit "e+" ++ lit (pretty (n - 1))
           end
     end.

(** *** Conversions *)

(** [v.toString()] and the conversion [String(v)] that [parseInt] and
    [Array.prototype.join] apply; [None]: a TypeError is raised.  An object
    prints as [[object Object]] unless it has a [toString] of its own: that
    one is not callable, so the method call fails and the conversion finds
    nothing to convert with.  The source calls the method on no value that
    is [null] or [undefined]: a truthiness test comes first everywhere. *)
Fixpoint toString (v : JSValue) : option jsstring :=
  match v with
  | JUndefined => Some (lit "undefined")
  | JNull => Some (lit "null")
  | JBool true => Some (lit "true")
  | JBool false => Some (lit "false")
  | JNum z => Some (Number_toString z)
  | JStr s => Some s
  | JArr l =>
      (* Array.prototype.join: null and undefined elements print as empty *)
      let element x :=
        match x with
        | JUndefined | JNull => Some []
        | _ => toString x
        end in
      (fix join (l : list JSValue) : option jsstring :=
         match l with
         | [] => Some []
         | [x] => element x
         | x :: r =>
             match element x, join r with
             | Some e, Some j => Some (e ++ 44%N :: j)
             | _, _ => None
             end
         end) l
  | JObj o =>
      if bool_decide (is_Some (o !! "toString")) then None
      else Some (lit "[object Object]")
  end.

(** White space and line terminators, as [String.prototype.trim] and
    [parseInt] skip them. *)
Definition is_whitespace (c : N) : bool :=
  bool_decide (c ∈ [9; 10; 11; 12; 13; 32; 160; 5760; 8232; 8233; 8239;
                    8287; 12288; 65279]%N)
  || ((8192 <=? c) && (c <=? 8202))%N.

Fixpoint trimStart (s : jsstring) : jsstring :=
  match s with
  | c :: r => if is_whitespace c then trimStart r else s
  | [] => []
  end.

(** [s.trim()] *)
Definition trim (s : jsstring) : jsstring :=
  reverse (trimStart (reverse (trimStart s))).

(** [s.split(' ').join('')]: every U+0020 is dropped. *)
Definition split_join (s : jsstring) : jsstring :=
  filter (λ c, c ≠ 32%N) s.

(** [['male', ...].includes(v)]: only a string equals a string. *)
Definition includes (l : list jsstring) (v : JSValue) : bool :=
  match v with
  | JStr s => bool_decide (s ∈ l)
  | _ => false
  end.

(** [v == 'literal']: a string compares as it is, an array after its
    conversion to a string; no other value of the model equals a string
    that is not numeric.  The values the source compares, a stored gender
    and a member of [req.query], hold no object with a [toString] of its
    own (the query parser drops such a key), on which the comparison would
    raise. *)
Definition loose_eq (v : JSValue) (s : jsstring) : bool :=
  match v with
  | JStr _ | JArr _ => bool_decide (toString v = Some s)
  | _ => false
  end.

(** The value of a digit in the given radix. *)
Definition digit (radix : Z) (c : N) : option Z :=
  let c := Z.of_N c in
  let d := if (48 <=? c) && (c <=? 57) then c - 48
           else if (97 <=? c) && (c <=? 122) then c - 87
           else if (65 <=? c) && (c <=? 90) then c - 55
           else radix in
  if d <? radix then Some d else None.

(** The number denoted by the longest prefix of digits, if there is one. *)
Fixpoint digits (radix : Z) (acc : option Z) (s : jsstring) : option Z :=
  match s with
  | c :: r =>
      match digit radix c with
      | Some d => digits radix (Some (default 0 acc * radix + d)) r
      | None => acc
      end
  | [] => acc
  end.

(** [parseInt(s)] with no radix; [None] is NaN. *)
Definition parseInt_string (s : jsstring) : option Z :=
  let s := trimStart s in
  let '(sign, s) :=
    match s with
    | 45%N :: r => (-1, r)
    | 43%N :: r => (1, r)
    | _ => (1, s)
    end in
  let '(radix, s) :=
    match s with
    | 48%N :: 120%N :: r | 48%N :: 88%N :: r => (16, r)
    | _ => (10, s)
    end in
  (λ n, sign * n) <$> digits radix None s.

(** [parseInt(v)] where it returns a number: the argument is converted
    to a string first.  [None]: the result is NaN, or the conversion
    raises. *)
Definition parseInt (v : JSValue) : option Z :=
  toString v ≫= parseInt_string.

End JS.
Import JS.

(** ** Callbacks *)

(** The symbolic error tags the model passes to [callback], and whatever
    error a collaborator hands over to be passed on ([callback(err)]). *)
Inductive error :=
| bad_request
| document_not_found
| password_verification
| email_validation
| password_length
| email_duplication
| database_error
| already_authenticated
| phone_validation
| passed_on (err : JSValue).

(** What an operation does towards its caller, in order: [callback(err)],
    [callback(null, result)] ([callback(null)] carries [JUndefined]), a
    TypeError of the language that escapes the operation, or the error that
    [mongoose.Types.ObjectId] throws at an argument it cannot read, which
    escapes it as well. *)
Inductive event :=
| Callback_err (e : error)
| Callback_ok (result : JSValue)
| TypeError
| Thrown.

(** ** The collection *)

(** An [ObjectId], by the hexadecimal string it prints as. *)
Abbreviation oid := (list N).

(** The [users] collection: documents by their [_id].  A document read from
    the collection is the pair of its [_id] and its fields. *)
Abbreviation store := (gmap oid object).
Abbreviation user := (oid * object)%type.

(** What does not depend on the arguments of a call: which of the database
    accesses fail for a reason of their own (connection, driver, a failing
    pre-save hook) and the [_id] a new document is given. *)
Record IO := {
  findOne_fails : bool;
  findById_fails : bool;
  update_fails : bool;
  save_fails : bool;
  new_id : oid
}.

(** The collection afterwards and the events, in order. *)
Record outcome := {
  db_after : store;
  events : list event
}.

(** [user.k] on a document. *)
Definition field (d : object) (k : string) : JSValue :=
  default JUndefined (d !! k).

(** [User.findOne({ email })] *)
Definition findOne_email (email : jsstring) (db : store) : option user :=
  List.find
    (λ u : user,
       match u.2 !! "email" with
       | Some (JStr e) => bool_decide (e = email)
       | _ => false
       end)
    (map_to_list db).

(** [User.findById(id, (err, user) => ...)]: [(err, user)]. *)
Definition findById (io : IO) (id : oid) (db : store) : bool * option user :=
  if findById_fails io then (true, None)
  else (false, (λ d, (id, d)) <$> db !! id).

(** [User.findByIdAndUpdate(id, {$set: ...}, {new}, (err, user) => ...)]:
    the collection afterwards and [(err, user)].  [set] writes the fields of
    [$set]; [new] asks for the document after the update instead of the one
    before.  A failed update leaves the collection as it was. *)
Definition findByIdAndUpdate (io : IO) (id : oid) (set : object → object)
    (new : bool) (db : store) : store * (bool * option user) :=
  if update_fails io then (db, (true, None))
  else
    match db !! id with
    | Some d => (<[id := set d]> db, (false, Some (id, if new then set d else d)))
    | None => (db, (false, None))
    end.

(** ** The collaborators of the model *)

(** The modules [User.js] requires and the repository does not show:
    [validator], [mongoose.Types.ObjectId], [models/country/Country] and
    the password functions.  Each is taken as given. *)
Class Collaborators := {
  (** [validator.isEmail], [validator.isMongoId], [validator.isMobilePhone],
      on strings *)
  isEmail : jsstring → bool;
  isMongoId : jsstring → bool;
  isMobilePhone : jsstring → bool;
  (** [mongoose.Types.ObjectId(v)]; [None]: it throws *)
  ObjectId : JSValue → option oid;
  (** [Country.getCountryWithAlpha2Code(code, (err, country) => ...)]:
      [(err, country)] *)
  getCountryWithAlpha2Code : JSValue → JSValue * JSValue;
  (** [Country.validateCityAndTown(country, data, res => ...)]: whether
      [res] is truthy *)
  validateCityAndTown : JSValue → JSValue → bool;
  (** the hash the pre-save hook stores for a plain password *)
  hash : jsstring → jsstring;
  (** [verifyPassword(password, stored, res => ...)]: whether [res] is
      truthy *)
  verifyPassword : jsstring → JSValue → bool;
  (** what [getUser] does when it is handed no document *)
  getUser_absent : list event
}.

(** ** The model *)

Section User.
Context `{Collaborators}.

(** The defaults of [UserSchema]; [email] and [password] are required and
    have none. *)
Definition UserSchema : object :=
  list_to_map [
    ("agreement_approved", JBool false);
    ("completed", JBool false);
    ("country", JNull);
    ("name", JNull);
    ("phone", JNull);
    ("gender", JNull);
    ("birth_year", JNull);
    ("city", JNull);
    ("town", JNull);
    ("information", JObj ∅);
    ("paid_campaigns", JArr []);
    ("campaigns", JArr []);
    ("payment_number", JNull);
    ("credit", JNum 0);
    ("waiting_credit", JNum 0);
    ("overall_credit", JNum 0);
    ("invitor", JNull);
    ("password_reset_code", JNull);
    ("password_reset_last_date", JNull)
  ].

(** [new User(data)]: the given fields over the defaults. *)
Definition new_User (data : object) : object := data ∪ UserSchema.

(** Modelled from the spec: [functions/hashPassword], the hook of
    [UserSchema.pre('save', hashPassword)], is not among the sources.  It
    hashes the plain password of the document before it is persisted. *)
Definition hashPassword (d : object) : object :=
  match d !! "password" with
  | Some (JStr password) => <["password" := JStr (hash password)]> d
  | _ => d
  end.

(** Modelled from the spec: [functions/getUser], the sanitizer, is not among
    the sources.  It hands its callback the user without the password hash,
    the reset code and its expiry, and the internal version key. *)
Definition getUser (u : option user) : list event :=
  match u with
  | Some (id, d) =>
      [Callback_ok
         (JObj (<["_id" := JStr id]>
                  (delete "password"
                     (delete "password_reset_code"
                        (delete "password_reset_last_date"
                           (delete "__v" d))))))]
  | None => getUser_absent
  end.

(** The [err] of [newUser.save((err, user) => ...)]: [err.code == 11000],
    the duplicate key error of a unique index, or another failure. *)
Inductive save_result :=
| Saved (u : user)
| DuplicateKey
| SaveFailed.

(** [newUser.save(...)]: the pre-save hook runs, then the document is
    inserted under a new [_id] unless the unique index on [email] (or the
    one on [_id]) refuses it. *)
Definition save (io : IO) (d : object) (db : store) : store * save_result :=
  if save_fails io then (db, SaveFailed)
  else
    let d := hashPassword d in
    let taken :=
      match d !! "email" with
      | Some (JStr email) => bool_decide (is_Some (findOne_email email db))
      | _ => false
      end in
    if bool_decide (is_Some (db !! new_id io)) || taken then (db, DuplicateKey)
    else (<[new_id io := d]> db, Saved (new_id io, d)).

(** [return callback(e)] *)
Definition fail (db : store) (e : error) : outcome :=
  {| db_after := db; events := [Callback_err e] |}.

(** A TypeError escapes: no callback is invoked, nothing is written. *)
Definition raise (db : store) : outcome :=
  {| db_after := db; events := [TypeError] |}.

(** [mongoose.Types.ObjectId] throws: no callback is invoked, nothing is
    written. *)
Definition throw (db : store) : outcome :=
  {| db_after := db; events := [Thrown] |}.

Definition erkek : jsstring := lit "erkek".
(** ['kadın']: the dotless i is U+0131. *)
Definition kadin : jsstring := lit "kad" ++ 305%N :: lit "n".

(** [UserSchema.statics.findUser] *)
Definition findUser (io : IO) (email password : JSValue) (db : store) : outcome :=
  if negb (truthy email) || negb (truthy password) then fail db bad_request
  else
    match email with
    | JStr email =>
        if negb (isEmail email) then fail db bad_request
        else if findOne_fails io then
          (* the promise of [findOne] is rejected and has no handler *)
          {| db_after := db; events := [] |}
        else
          match findOne_email (trim email) db with
          | None => fail db document_not_found
          | Some (id, u) =>
              match password with
              | JStr password =>
                  if negb (verifyPassword (trim password) (field u "password")) then
                    fail db password_verification
                  else
                    let gender := field u "gender" in
                    if truthy gender && (loose_eq gender erkek || loose_eq gender kadin) then
                      (* [ObjectId(user._id.toString())] is the [_id] just read *)
                      let '(db', (err, u')) :=
                        findByIdAndUpdate io id
                          (λ d, <["gender" := JStr (if loose_eq gender erkek
                                                    then lit "male" else lit "female")]> d)
                          true db in
                      {| db_after := db';
                         events := (if err then [Callback_err database_error] else [])
                                   ++ getUser u' |}
                    else
                      {| db_after := db; events := getUser (Some (id, u)) |}
              | _ =>
                  (* [password.trim] is not a function *)
                  {| db_after := db; events := [TypeError] |}
              end
          end
    | _ =>
        (* [validator.isEmail] refuses what is not a string *)
        {| db_after := db; events := [TypeError] |}
    end.

(** [return callback(null)] *)
Definition succeed (db : store) : outcome :=
  {| db_after := db; events := [Callback_ok JUndefined] |}.

(** [data.code && validator.isMongoId(data.code.toString()) ?
    data.code.toString() : null]; [None]: [data.code.toString] is not a
    function. *)
Definition invitor (data : JSValue) : option JSValue :=
  if truthy (get data "code") then
    match toString (get data "code") with
    | Some code => Some (if isMongoId code then JStr code else JNull)
    | None => None
    end
  else Some JNull.

(** [newUserData] and [newUser = new User(newUserData)] of [createUser],
    given the value of [invitor]. *)
Definition newUserData (email password : jsstring) (code : JSValue) : object :=
  list_to_map [
    ("email", JStr email);
    ("password", JStr password);
    ("invitor", code);
    ("agreement_approved", JBool true)
  ].

Definition newUser (email password : jsstring) (code : JSValue) : object :=
  new_User (newUserData email password code).

(** [UserSchema.statics.createUser] *)
Definition createUser (io : IO) (data : JSValue) (db : store) : outcome :=
  if negb (truthy data) || negb (is_object data)
     || negb (truthy (get data "email")) || negb (truthy (get data "password"))
     || negb (is_string (get data "email")) || negb (is_string (get data "password"))
  then fail db bad_request
  else
    match get data "email", get data "password" with
    | JStr email, JStr password =>
        if negb (isEmail email) then fail db email_validation
        else if (Z.of_nat (length password) <? 6) then fail db password_length
        else
          match invitor data with
          | None => raise db
          | Some code =>
              match save io (newUser email password code) db with
              | (db', DuplicateKey) => fail db' email_duplication
              | (db', SaveFailed) => fail db' database_error
              | (db', Saved u) => {| db_after := db'; events := getUser (Some u) |}
              end
          end
    | _, _ => fail db bad_request  (* excluded by the test above *)
    end.

Definition allowedGenderValues : list jsstring :=
  [lit "male"; lit "female"; lit "other"; lit "not_specified"].

(** The [$set] of [completeUser], given the stripped phone, the parsed
    birth year and the country record. *)
Definition completeUser_set (data phone : JSValue) (birth_year : Z)
    (country : JSValue) (d : object) : object :=
  <["name" := get data "name"]>
    (<["country" := get country "alpha2_code"]>
       (<["phone" := phone]>
          (<["gender" := get data "gender"]>
             (<["birth_year" := JNum birth_year]>
                (<["completed" := JBool true]> d))))).

(** [completeUser] from the callback of the country lookup on, once the
    country is there: [id] is [id.toString()] and [set] writes the fields of
    its [$set].  [ObjectId] reads the same string twice, so it answers the
    second time as it did the first. *)
Definition completeUser_resolved (io : IO) (id : jsstring) (set : object → object)
    (db : store) : outcome :=
  match ObjectId (JStr id) with
  | None => throw db
  | Some _id =>
      match findById io _id db with
      | (true, _) | (false, None) => fail db document_not_found
      | (false, Some (_, u)) =>
          if truthy (field u "completed")
          then fail db already_authenticated
          else
            let '(db', (err, u')) := findByIdAndUpdate io _id set false db in
            if err then fail db' database_error
            else if negb (bool_decide (is_Some u'))
            then fail db' document_not_found
            else succeed db'
      end
  end.

(** [UserSchema.statics.completeUser].  The assignment to [data.phone] is
    the local [phone] from there on; the caller's payload, which the source
    overwrites in place, is not followed further. *)
Definition completeUser (io : IO) (id data : JSValue) (db : store) : outcome :=
  if negb (truthy data) || negb (is_object data) || negb (truthy id)
  then fail db bad_request
  else
    match toString id with
    | None => raise db  (* [id.toString] is not a function *)
    | Some _id =>
        if negb (isMongoId _id) then fail db bad_request
        else if negb (truthy (get data "name")) || negb (is_string (get data "name"))
        then fail db bad_request
        else
          let stripped :=
            if truthy (get data "phone") then
              match get data "phone" with
              | JStr phone => Some (JStr (split_join phone))
              | _ => None  (* [data.phone.split] is not a function *)
              end
            else Some JNull in
          match stripped with
          | None => raise db
          | Some phone =>
              if negb (truthy phone)
                 || negb (from_option isMobilePhone false (toString phone))
              then fail db phone_validation
              else if negb (truthy (get data "gender"))
                      || negb (includes allowedGenderValues (get data "gender"))
              then fail db bad_request
              else if negb (truthy (get data "birth_year"))
              then fail db bad_request
              else
                match toString (get data "birth_year") with
                | None => raise db  (* [parseInt] cannot convert its argument *)
                | Some year =>
                    match parseInt_string year with
                    | None => fail db bad_request  (* [isNaN] *)
                    | Some birth_year =>
                        if (birth_year <? 1920) || (2020 <? birth_year)
                        then fail db bad_request
                        else
                          let '(err, country) :=
                            getCountryWithAlpha2Code (get data "country") in
                          if truthy err || negb (truthy country)
                          then fail db bad_request
                          else
                            completeUser_resolved io _id
                              (completeUser_set data phone birth_year country) db
                    end
                end
          end
    end.

(** [data.phone && validator.isMobilePhone(data.phone.toString()) ?
    data.phone : user.phone]; [None]: [data.phone.toString] is not a
    function. *)
Definition updateUser_phone (data : JSValue) (u : object) : option JSValue :=
  if truthy (get data "phone") then
    match toString (get data "phone") with
    | Some phone => Some (if isMobilePhone phone then get data "phone"
                          else field u "phone")
    | None => None
    end
  else Some (field u "phone").

(** [updateUser] from [const User = this] on: what it does once the
    arguments have passed its first test; [id] is [id.toString()].  The
    object of [$set] is built when the update is asked for, after the answer
    of the country service. *)
Definition updateUser_lookup (io : IO) (id : jsstring) (data : JSValue)
    (db : store) : outcome :=
  match ObjectId (JStr id) with
  | None => throw db
  | Some _id =>
      match findById io _id db with
      | (true, _) | (false, None) => fail db document_not_found
      | (false, Some (_, u)) =>
          let name :=
            if truthy (get data "name") && is_string (get data "name")
            then get data "name" else field u "name" in
          if truthy (get data "city") && truthy (get data "town") then
            if negb (validateCityAndTown (field u "country") data)
            then fail db bad_request
            else
              match updateUser_phone data u with
              | None => raise db
              | Some phone =>
                  let '(db', (err, _)) :=
                    findByIdAndUpdate io _id
                      (λ d, <["name" := name]>
                              (<["phone" := phone]>
                                 (<["city" := get data "city"]>
                                    (<["town" := get data "town"]> d))))
                      false db in
                  if err then fail db' database_error else succeed db'
              end
          else
            match updateUser_phone data u with
            | None => raise db
            | Some phone =>
                let '(db', (err, _)) :=
                  findByIdAndUpdate io _id
                    (λ d, <["name" := name]> (<["phone" := phone]> d))
                    false db in
                if err then fail db' database_error else succeed db'
            end
      end
  end.

(** [UserSchema.statics.updateUser] *)
Definition updateUser (io : IO) (id data : JSValue) (db : store) : outcome :=
  if negb (truthy id) then fail db bad_request
  else
    match toString id with
    | None => raise db  (* [id.toString] is not a function *)
    | Some _id =>
        if negb (isMongoId _id) || negb (truthy data) || negb (is_string data)
        then fail db bad_request
        else updateUser_lookup io _id data db
    end.

(** *** The checks of profile completion, as the specification words them *)

(** 1. identifier well-formed, payload is an object *)
Definition well_formed (id data : JSValue) : bool :=
  truthy data && is_object data && truthy id
  && from_option isMongoId false (toString id).

(** 2. [name] present and a string *)
Definition name_ok (data : JSValue) : bool :=
  match get data "name" with
  | JStr name => negb (bool_decide (name = []))
  | _ => false
  end.

(** 3. [phone]: stripped of its spaces, then a mobile number *)
Definition phone_ok (data : JSValue) : bool :=
  match get data "phone" with
  | JStr phone =>
      negb (bool_decide (split_join phone = [])) && isMobilePhone (split_join phone)
  | _ => false
  end.

(** 4. [gender] one of male, female, other, not_specified *)
Definition gender_ok (data : JSValue) : bool :=
  includes allowedGenderValues (get data "gender").

(** 5. [birth_year] parses as an integer in 1920..2020 *)
Definition birth_year_ok (data : JSValue) : bool :=
  truthy (get data "birth_year")
  && match parseInt (get data "birth_year") with
     | Some n => (1920 <=? n) && (n <=? 2020)
     | None => false
     end.

(** 6. [country] resolves via the country service *)
Definition country_ok (data : JSValue) : bool :=
  let '(err, country) := getCountryWithAlpha2Code (get data "country") in
  negb (truthy err) && truthy country.

(** [mongoose.Types.ObjectId(id.toString())], where it returns. *)
Definition identifier (id : JSValue) : option oid :=
  toString id ≫= λ id, ObjectId (JStr id).

(** The account the lookup by identifier yields, if it yields one. *)
Definition account (io : IO) (id : JSValue) (db : store) : option object :=
  match identifier id with
  | Some _id =>
      match findById io _id db with
      | (false, Some (_, u)) => Some u
      | _ => None
      end
  | None => None
  end.

(** 7. the account exists *)
Definition account_exists (io : IO) (id : JSValue) (db : store) : bool :=
  bool_decide (is_Some (account io id db)).

(** 8. the account is not completed yet *)
Definition not_completed (io : IO) (id : JSValue) (db : store) : bool :=
  match account io id db with
  | Some u => negb (truthy (field u "completed"))
  | None => true
  end.

(** The phone is absent (falsy) or a string. *)
Definition phone_textual (data : JSValue) : bool :=
  is_string (get data "phone") || negb (truthy (get data "phone")).

(** [v] converts to a string. *)
Definition converts (v : JSValue) : bool := bool_decide (is_Some (toString v)).

(** What becomes of a check: it passes, it fails with an error for the
    callback, the code that evaluates it raises a TypeError, or [ObjectId]
    throws. *)
Inductive verdict :=
| Passes
| Fails (e : error)
| Raises
| Throws.

Definition check (passes : bool) (e : error) : verdict :=
  if passes then Passes else Fails e.

(** The checks in their order, each with the error of its failure, and with
    what raises where the source converts a value on the way: the
    identifier (check 1), a phone that is no string (check 3), the birth
    year (check 5), and the identifier again when [ObjectId] reads it
    (check 7). *)
Definition checks (io : IO) (id data : JSValue) (db : store) : list verdict :=
  [ if truthy data && is_object data && truthy id && negb (converts id)
    then Raises else check (well_formed id data) bad_request;
    check (name_ok data) bad_request;
    if phone_textual data then check (phone_ok data) phone_validation
    else Raises;
    check (gender_ok data) bad_request;
    if truthy (get data "birth_year") && negb (converts (get data "birth_year"))
    then Raises else check (birth_year_ok data) bad_request;
    check (country_ok data) bad_request;
    if converts id && negb (bool_decide (is_Some (identifier id)))
    then Throws else check (account_exists io id db) document_not_found;
    check (not_completed io id db) already_authenticated ].

(** The verdict of the first check that does not pass. *)
Fixpoint first_failure (l : list verdict) : verdict :=
  match l with
  | [] => Passes
  | Passes :: l => first_failure l
  | v :: _ => v
  end.

(** A payload that passes the checks on the arguments alone. *)
Definition valid_payload (id data : JSValue) : bool :=
  well_formed id data && name_ok data && phone_ok data && gender_ok data
  && birth_year_ok data && country_ok data.

End User.

(** ** A test double of the collaborators

    Small stand-ins, so that the model runs on concrete calls.  An address
    is a string with an at sign and no U+0020; like the validator's pattern
    for the local part, this admits other white space, U+3000 for one.  A
    well-formed identifier is a hexadecimal numeral of 24 characters, with
    the prefix [0x] or [0h] if it has one, as [validator.isMongoId] reads
    it, while [ObjectId] reads 24 hexadecimal digits and throws at anything
    else.  A phone is 10 to 13 decimal digits, the countries are US and TR,
    and a hash is the password behind a dollar sign. *)

Definition is_hex (c : N) : bool :=
  ((48 <=? c) && (c <=? 57) || (97 <=? c) && (c <=? 102)
   || (65 <=? c) && (c <=? 70))%N.

Definition is_decimal (c : N) : bool := ((48 <=? c) && (c <=? 57))%N.

(** [/^(0x|0h)?[0-9A-F]+$/i] *)
Definition is_hexadecimal (s : jsstring) : bool :=
  let digits :=
    match s with
    | 48%N :: c :: r => if bool_decide (c ∈ [120; 88; 104; 72]%N) then r else s
    | _ => s
    end in
  negb (bool_decide (digits = [])) && forallb is_hex digits.

(** The lower case of a hexadecimal digit, as an [ObjectId] prints it. *)
Definition lower_hex (c : N) : N :=
  if ((65 <=? c) && (c <=? 70))%N then (c + 32)%N else c.

Definition test_double : Collaborators := {|
  isEmail e := bool_decide (64%N ∈ e) && negb (bool_decide (32%N ∈ e));
  isMongoId s := bool_decide (length s = 24%nat) && is_hexadecimal s;
  isMobilePhone s :=
    bool_decide (10 ≤ length s ≤ 13)%nat && forallb is_decimal s;
  ObjectId v :=
    match v with
    | JStr s =>
        if bool_decide (length s = 24%nat) && forallb is_hex s
        then Some (lower_hex <$> s) else None
    | _ => None
    end;
  getCountryWithAlpha2Code code :=
    match code with
    | JStr c =>
        if bool_decide (c ∈ [lit "US"; lit "TR"])
        then (JNull, JObj {[ "alpha2_code" := JStr c ]})
        else (JNull, JNull)
    | _ => (JNull, JNull)
    end;
  validateCityAndTown _ _ := true;
  hash p := 36%N :: p;
  verifyPassword p stored :=
    match stored with
    | JStr h => bool_decide (h = 36%N :: p)
    | _ => false
    end;
  getUser_absent := [Callback_err document_not_found]
|}.

(** No database access fails; a new document gets the given [_id]. *)
Definition calm (id : oid) : IO :=
  {| findOne_fails := false; findById_fails := false; update_fails := false;
     save_fails := false; new_id := id |}.

Definition id_a : oid := lit "5f74c3442b4e90001c72b747".

(** A payload of profile completion, and the one of the specification's
    scenario. *)
Definition profile_of (phone birth_year country : JSValue) : JSValue :=
  JObj (list_to_map [
    ("name", JStr (lit "A"));
    ("phone", phone);
    ("gender", JStr (lit "male"));
    ("birth_year", birth_year);
    ("country", country)
  ]).

Definition profile (birth_year : JSValue) : JSValue :=
  profile_of (JStr (lit "555 123 4567")) birth_year (JStr (lit "US")).

(** The account [a@b.com] as [createUser] leaves it, and the collection that
    holds only it. *)
Definition account_a : object :=
  <["email" := JStr (lit "a@b.com")]>
    (<["password" := JStr (36%N :: lit "secret")]>
       (<["agreement_approved" := JBool true]> UserSchema)).

Definition db_a : store := {[ id_a := account_a ]}.


(** The account once its profile is completed with [profile 1995], and the
    collection that holds only it. *)
Definition account_done : object :=
  completeUser_set (profile (JNum 1995))
    (JStr (lit "5551234567")) 1995 (JObj {[ "alpha2_code" := JStr (lit "US") ]})
    account_a.

Definition db_done : store := {[ id_a := account_done ]}.

(** The account [a@b.com] with a legacy gender, and the collection that holds
    only it. *)
Definition account_erkek : object := <["gender" := JStr erkek]> account_a.
Definition db_erkek : store := {[ id_a := account_erkek ]}.
Definition account_kadin : object := <["gender" := JStr kadin]> account_a.
Definition db_kadin : store := {[ id_a := account_kadin ]}.

(** Every update fails; nothing else does. *)
Definition update_down : IO :=
  {| findOne_fails := false; findById_fails := false; update_fails := true;
     save_fails := false; new_id := id_a |}.

Definition id_b : oid := lit "5f74c3442b4e90001c72b748".

(** The payloads of account creation. *)
Definition signup (password : string) : JSValue :=
  JObj (list_to_map [("email", JStr (lit "a@b.com"));
                     ("password", JStr (lit password))]).

(** The payloads of account creation with a referral code. *)
Definition signup_with (email : jsstring) (password : string) (code : JSValue)
    : JSValue :=
  JObj (list_to_map [("email", JStr email);
                     ("password", JStr (lit password));
                     ("code", code)]).

(** ** The frame of an update *)

(** The frame of one update: other documents and other fields stay. *)
Definition framed (k : oid) (fields : list string) (db db' : store) : Prop :=
  (∀ k', k' ≠ k → db' !! k' = db !! k')
  ∧ (∀ u, db !! k = Some u →
       ∃ u', db' !! k = Some u' ∧ ∀ f, f ∉ fields → u' !! f = u !! f).


(** ** The rest of the model: lookup by identifier *)

Section Lookup.
Context `{Collaborators}.

(** A document as the driver hands it to a callback: its fields with its
    [_id]. *)
Definition document (u : user) : JSValue :=
  JObj (<["_id" := JStr u.1]> u.2).

(** [UserSchema.statics.getUserById].  [driver_error] is the error a failing
    lookup hands over, which the source passes on as it is.  The identifier
    goes to [ObjectId] as it came, not as a string. *)
Definition getUserById (io : IO) (driver_error : JSValue) (id : JSValue)
    (db : store) : outcome :=
  if negb (truthy id) then fail db bad_request
  else
    match toString id with
    | None => raise db  (* [id.toString] is not a function *)
    | Some s =>
        if negb (isMongoId s) then fail db bad_request
        else
          match ObjectId id with
          | None => throw db
          | Some _id =>
              match findById io _id db with
              | (true, _) => fail db (passed_on driver_error)
              | (false, u) =>
                  {| db_after := db;
                     events := [Callback_ok (from_option document JNull u)] |}
              end
          end
    end.

End Lookup.

(** ** Invariants of the collection *)

(** What the unique index on [email] keeps: no two documents with one
    address. *)
Definition unique_emails (db : store) : Prop :=
  ∀ k1 k2 d1 d2 e,
    db !! k1 = Some d1 → db !! k2 = Some d2 →
    d1 !! "email" = Some (JStr e) → d2 !! "email" = Some (JStr e) →
    k1 = k2.

(** The documents are the same ones and every one reads the same on the
    fields that [keep] holds of. *)
Definition same_on (keep : string → Prop) (db db' : store) : Prop :=
  ∀ k,
    match db !! k, db' !! k with
    | Some d, Some d' => ∀ f, keep f → d' !! f = d !! f
    | None, None => True
    | _, _ => False
    end.

(** A profile as [completeUser] accepts it. *)
Definition completed_profile `{Collaborators} (d : object) : Prop :=
  (∃ name, d !! "name" = Some (JStr name) ∧ name ≠ [])
  ∧ (∃ phone, d !! "phone" = Some (JStr phone)
              ∧ (32%N ∉ phone) ∧ isMobilePhone phone = true)
  ∧ (∃ gender, d !! "gender" = Some (JStr gender) ∧ gender ∈ allowedGenderValues)
  ∧ (∃ n, d !! "birth_year" = Some (JNum n) ∧ 1920 ≤ n ≤ 2020)
  ∧ d !! "completed" = Some (JBool true).

(** ** The mail of updates: [GET ...?updates=mail] *)

(** What a handler answers with. *)
Inductive response :=
| Redirect (path : string).

(** [utils/sendMail(data, template, err => ...)]: whether [err] is truthy. *)
Class Mailer := {
  sendMail : list JSValue → string → bool
}.

(** What a handler did: the mails it asked for, each with its list of
    addresses and its template, and its answer. *)
Record handled := {
  mails : list (list JSValue * string);
  answer : response
}.

(** The filter [{completed: true, birth_year: {$lte: 1996}}]: [completed] is
    the boolean true and [birth_year] a number that is at most 1996. *)
Definition completed_born_by (year : Z) (d : object) : bool :=
  match d !! "completed", d !! "birth_year" with
  | Some (JBool true), Some (JNum n) => n <=? year
  | _, _ => false
  end.

(** [User.find(filter, (err, users) => ...)]: [(err, users)]. *)
Definition find (fails : bool) (filter : object → bool) (db : store)
    : bool * list user :=
  if fails then (true, [])
  else (false, List.filter (λ u : user, filter u.2) (map_to_list db)).

(** The handler of the mail of updates; [query] is [req.query]. *)
Definition send_updates `{Mailer} (find_fails : bool) (query : JSValue)
    (db : store) : handled :=
  if negb (truthy query) || negb (truthy (get query "updates"))
     || negb (loose_eq (get query "updates") (lit "mail"))
  then {| mails := []; answer := Redirect "/" |}
  else
    match find find_fails (completed_born_by 1996) db with
    | (true, _) => {| mails := []; answer := Redirect "/" |}
    | (false, users) =>
        let emailList := map (λ u : user, field u.2 "email") users in
        {| mails := [(emailList, "marketyo")];
           answer := if sendMail emailList "marketyo"
                     then Redirect "/" else Redirect "/admin" |}
    end.

(** A mailer that always delivers, and one that never does. *)
Definition delivering : Mailer := {| sendMail _ _ := false |}.
Definition bouncing : Mailer := {| sendMail _ _ := true |}.


(** * Properties *)

(** ** Lookups by address *)

Lemma findOne_email_Some email db id d :
  findOne_email email db = Some (id, d) →
  db !! id = Some d ∧ d !! "email" = Some (JStr email).
Proof.
  unfold findOne_email. intros Hf.
  apply find_some in Hf as [Hin Hp]. simpl in Hp.
  split.
  - apply elem_of_map_to_list. by apply list_elem_of_In.
  - destruct (d !! "email") as [[]|]; try done.
    by apply bool_decide_eq_true in Hp as ->.
Qed.

Lemma findOne_email_None email db id d :
  findOne_email email db = None →
  db !! id = Some d → d !! "email" ≠ Some (JStr email).
Proof.
  unfold findOne_email. intros Hf Hd He.
  apply elem_of_map_to_list, list_elem_of_In in Hd.
  apply (find_none _ _ Hf) in Hd. simpl in Hd.
  rewrite He in Hd. by rewrite bool_decide_eq_true_2 in Hd.
Qed.

Lemma findOne_email_insert email db id d :
  findOne_email email db = None →
  d !! "email" = Some (JStr email) →
  findOne_email email (<[id := d]> db) = Some (id, d).
Proof.
  intros Hnone He.
  destruct (findOne_email email (<[id := d]> db)) as [[id' d']|] eqn:Hf.
  - apply findOne_email_Some in Hf as [Hl He'].
    destruct (decide (id = id')) as [->|Hne].
    + rewrite lookup_insert_eq in Hl. by simplify_eq.
    + rewrite lookup_insert_ne in Hl by done.
      by destruct (findOne_email_None _ _ _ _ Hnone Hl).
  - by destruct (findOne_email_None _ _ id d Hf (lookup_insert_eq _ _ _)).
Qed.

(** ** Profile completion: how a call is decided *)

Section CompleteUser.
Context `{Collaborators}.

Lemma includes_truthy v : includes allowedGenderValues v = true → truthy v = true.
Proof.
  destruct v as [| |?|?|s|?|?]; try done. simpl. intros Hin.
  apply bool_decide_eq_true in Hin.
  destruct s; [|done].
  by repeat (apply elem_of_cons in Hin as [|Hin]; [done|]); apply elem_of_nil in Hin.
Qed.

Lemma in_range n : (n <? 1920) || (2020 <? n) = negb ((1920 <=? n) && (n <=? 2020)).
Proof. lia. Qed.

Lemma converts_Some v s : toString v = Some s → converts v = true.
Proof. intros Hs. apply bool_decide_eq_true. by rewrite Hs. Qed.

Lemma converts_None v : toString v = None → converts v = false.
Proof. intros Hs. apply bool_decide_eq_false. rewrite Hs. by intros []. Qed.

Lemma well_formed_Some id data :
  well_formed id data = true ↔
  truthy data = true ∧ is_object data = true ∧ truthy id = true
  ∧ ∃ s, toString id = Some s ∧ isMongoId s = true.
Proof.
  unfold well_formed. rewrite !andb_true_iff.
  destruct (toString id) as [s|]; simpl.
  - split; [intros [[[??]?]?]; eauto 10|].
    by intros (? & ? & ? & ? & [= <-] & ?).
  - split; [by intros [_ ?]|]. by intros (_ & _ & _ & ? & ? & _).
Qed.

(** The checks on the payload: what the first one that does not pass makes
    of the call, and where the call stands when all six pass. *)
Lemma completeUser_payload io id data db :
  match first_failure (take 6 (checks io id data db)) with
  | Fails e => completeUser io id data db = fail db e
  | Raises => completeUser io id data db = raise db
  | Throws => completeUser io id data db = throw db
  | Passes =>
      ∃ s phone n err country,
        toString id = Some s ∧ isMongoId s = true
        ∧ get data "phone" = JStr phone
        ∧ parseInt (get data "birth_year") = Some n ∧ 1920 ≤ n ≤ 2020
        ∧ getCountryWithAlpha2Code (get data "country") = (err, country)
        ∧ completeUser io id data db =
            completeUser_resolved io s
              (completeUser_set data (JStr (split_join phone)) n country) db
  end.
Proof.
  unfold checks, completeUser. cbn [take first_failure].
  unfold well_formed, converts.
  destruct (truthy data); [|done]. destruct (is_object data); [|done].
  destruct (truthy id); [|done]. cbn [negb orb andb].
  destruct (toString id) as [s|] eqn:Hs; cycle 1.
  { rewrite bool_decide_eq_false_2 by (by intros []). done. }
  rewrite bool_decide_eq_true_2 by done. cbn [negb from_option].
  destruct (isMongoId s) eqn:Hid; [|done]. cbn [check negb first_failure].
  unfold name_ok.
  destruct (get data "name") as [| |[]|?|name|?|?] eqn:Hname; try done.
  { cbn. by rewrite orb_true_r. }
  cbn [truthy is_string negb orb check].
  destruct (bool_decide (name = [])); [done|]. cbn [negb first_failure].
  unfold phone_textual, phone_ok.
  destruct (get data "phone") as [| |[]|z|phone|?|?] eqn:Hphone; try done.
  { cbn. by destruct (z =? 0). }
  cbn [truthy is_string orb].
  destruct (bool_decide (phone = [])) eqn:Hempty; cbn [negb].
  { apply bool_decide_eq_true in Hempty as ->. done. }
  cbn [toString from_option truthy].
  destruct (bool_decide (split_join phone = [])); [done|]. cbn [negb orb andb].
  destruct (isMobilePhone (split_join phone)); [|done].
  cbn [negb check first_failure]. unfold gender_ok.
  destruct (includes allowedGenderValues (get data "gender")) eqn:Hg;
    [|by rewrite orb_true_r].
  rewrite (includes_truthy _ Hg). cbn [negb orb check first_failure].
  unfold birth_year_ok, parseInt.
  destruct (truthy (get data "birth_year")); [|done]. cbn [negb andb].
  destruct (toString (get data "birth_year")) as [year|] eqn:Hyear; cycle 1.
  { rewrite bool_decide_eq_false_2 by (by intros []). done. }
  rewrite bool_decide_eq_true_2 by done. cbn [negb mbind option_bind].
  destruct (parseInt_string year) as [n|] eqn:Hn; [|done].
  rewrite in_range.
  destruct ((1920 <=? n) && (n <=? 2020)) eqn:Hrange; [|done].
  cbn [negb check first_failure]. unfold country_ok.
  destruct (getCountryWithAlpha2Code (get data "country")) as [err country].
  destruct (truthy err); [done|]. cbn [negb orb andb].
  destruct (truthy country); [|done]. cbn [negb check first_failure].
  exists s, phone, n, err, country.
  repeat split; try done; lia.
Qed.

Lemma phone_ok_textual data : phone_ok data = true → phone_textual data = true.
Proof. unfold phone_ok, phone_textual. by destruct (get data "phone"). Qed.

Lemma birth_year_ok_converts data :
  birth_year_ok data = true → converts (get data "birth_year") = true.
Proof.
  unfold birth_year_ok, parseInt. intros [_ Hb]%andb_prop.
  destruct (toString (get data "birth_year")) eqn:Hs; [|done].
  by eapply converts_Some.
Qed.

Lemma valid_payload_checks io id data db :
  first_failure (take 6 (checks io id data db)) = Passes ↔ valid_payload id data = true.
Proof.
  unfold valid_payload, checks. cbn [take first_failure].
  destruct (well_formed id data) eqn:Hw; cycle 1.
  { by destruct (_ && negb (converts id)). }
  pose proof Hw as (-> & -> & -> & s & Hs & _)%well_formed_Some.
  rewrite (converts_Some _ _ Hs). cbn.
  destruct (name_ok data); cbn; [|done].
  destruct (phone_ok data) eqn:Hp; cycle 1.
  { by destruct (phone_textual data). }
  rewrite (phone_ok_textual _ Hp). cbn.
  destruct (gender_ok data); cbn; [|done].
  destruct (birth_year_ok data) eqn:Hb; cycle 1.
  { by destruct (_ && negb _). }
  rewrite (birth_year_ok_converts _ Hb), andb_false_r. cbn.
  by destruct (country_ok data).
Qed.

Lemma completeUser_passes io id data db :
  valid_payload id data = true →
  ∃ s phone n err country,
    toString id = Some s ∧ isMongoId s = true
    ∧ get data "phone" = JStr phone
    ∧ parseInt (get data "birth_year") = Some n ∧ 1920 ≤ n ≤ 2020
    ∧ getCountryWithAlpha2Code (get data "country") = (err, country)
    ∧ completeUser io id data db =
        completeUser_resolved io s
          (completeUser_set data (JStr (split_join phone)) n country) db.
Proof.
  intros Hv. pose proof (completeUser_payload io id data db) as Hp.
  by rewrite (proj2 (valid_payload_checks io id data db) Hv) in Hp.
Qed.

Lemma account_Some io id db u :
  account io id db = Some u ↔
  ∃ k, identifier id = Some k ∧ findById_fails io = false ∧ db !! k = Some u.
Proof.
  unfold account, findById.
  destruct (identifier id) as [k|]; cycle 1.
  { split; [done|]. by intros (? & ? & _). }
  destruct (findById_fails io).
  { split; [done|]. by intros (? & _ & ? & _). }
  destruct (db !! k) eqn:Hk; simpl.
  - split; [intros [= ->]; by exists k|]. intros (? & [= <-] & _ & Hu). congruence.
  - split; [done|]. intros (? & [= <-] & _ & Hu). congruence.
Qed.

(** The two checks on the account: what the first one that does not pass
    makes of the call from the lookup on, and the update when both pass. *)
Lemma completeUser_resolved_cases io id data s set db :
  toString id = Some s →
  match first_failure (drop 6 (checks io id data db)) with
  | Fails e => completeUser_resolved io s set db = fail db e
  | Raises => completeUser_resolved io s set db = raise db
  | Throws => completeUser_resolved io s set db = throw db
  | Passes =>
      ∃ k u,
        identifier id = Some k ∧ account io id db = Some u
        ∧ truthy (field u "completed") = false
        ∧ completeUser_resolved io s set db =
            if update_fails io then fail db database_error
            else succeed (<[k := set u]> db)
  end.
Proof.
  intros Hs. unfold checks. cbn [drop].
  unfold account_exists, not_completed, account, identifier, completeUser_resolved.
  rewrite (converts_Some _ _ Hs), Hs. cbn [mbind option_bind andb].
  destruct (ObjectId (JStr s)) as [k|]; cycle 1.
  { rewrite bool_decide_eq_false_2 by (by intros []). done. }
  rewrite bool_decide_eq_true_2 by done. cbn [negb].
  unfold findById, findByIdAndUpdate.
  destruct (findById_fails io).
  { rewrite bool_decide_eq_false_2 by (by intros []). done. }
  destruct (db !! k) as [u|] eqn:Hk; simpl; [|done].
  destruct (truthy (field u "completed")) eqn:Hc; [done|]. simpl.
  exists k, u. repeat split; try done.
  by destruct (update_fails io).
Qed.

Lemma first_failure_app l1 l2 :
  first_failure (l1 ++ l2) =
    match first_failure l1 with
    | Passes => first_failure l2
    | v => v
    end.
Proof. induction l1 as [|[] l1 IH]; simpl; done. Qed.

Lemma first_failure_split io id data db :
  first_failure (checks io id data db) =
    match first_failure (take 6 (checks io id data db)) with
    | Passes => first_failure (drop 6 (checks io id data db))
    | v => v
    end.
Proof. by rewrite <- first_failure_app, take_drop. Qed.

(** Every call of [completeUser], by what it leaves behind: nothing changes
    and no success is reported, or one account that was not completed is
    updated with a [$set] that makes it completed. *)
Lemma completeUser_shape io id data db :
  (db_after (completeUser io id data db) = db
   ∧ events (completeUser io id data db) ≠ [Callback_ok JUndefined])
  ∨ (∃ s phone n err country k u,
       toString id = Some s ∧ isMongoId s = true
       ∧ get data "phone" = JStr phone
       ∧ parseInt (get data "birth_year") = Some n ∧ 1920 ≤ n ≤ 2020
       ∧ getCountryWithAlpha2Code (get data "country") = (err, country)
       ∧ identifier id = Some k ∧ account io id db = Some u
       ∧ truthy (field u "completed") = false
       ∧ valid_payload id data = true
       ∧ completeUser io id data db =
           succeed (<[k := completeUser_set data (JStr (split_join phone)) n
                             country u]> db)).
Proof.
  pose proof (completeUser_payload io id data db) as Hp.
  destruct (first_failure (take 6 (checks io id data db))) as [|e| |] eqn:Hf;
    [|left; by rewrite Hp..].
  destruct Hp as (s & phone & n & err & country & Hs & Hid & Hphone & Hn & Hr & Hc & Hp).
  pose proof (completeUser_resolved_cases io id data s
                (completeUser_set data (JStr (split_join phone)) n country) db Hs) as Hq.
  rewrite Hp.
  destruct (first_failure (drop 6 (checks io id data db))) as [|e| |];
    [|left; by rewrite Hq..].
  destruct Hq as (k & u & Hk & Ha & Hnot & ->).
  destruct (update_fails io); [by left|]. right.
  exists s, phone, n, err, country, k, u. repeat split; try done; try lia.
  by apply valid_payload_checks in Hf.
Qed.

Lemma resolved_completed io id s set db u :
  toString id = Some s → account io id db = Some u →
  truthy (field u "completed") = true →
  completeUser_resolved io s set db = fail db already_authenticated.
Proof.
  intros Hs (k & Hk & Hio & Hu)%account_Some Hc.
  unfold identifier in Hk. rewrite Hs in Hk. simpl in Hk.
  unfold completeUser_resolved, findById. rewrite Hk, Hio, Hu. simpl.
  by rewrite Hc.
Qed.

Lemma resolved_update io id s set db k u :
  toString id = Some s → identifier id = Some k → account io id db = Some u →
  truthy (field u "completed") = false →
  completeUser_resolved io s set db =
    if update_fails io then fail db database_error
    else succeed (<[k := set u]> db).
Proof.
  intros Hs Hk (k' & Hk' & Hio & Hu)%account_Some Hc.
  rewrite Hk in Hk'. injection Hk' as <-.
  unfold identifier in Hk. rewrite Hs in Hk. simpl in Hk.
  unfold completeUser_resolved, findById, findByIdAndUpdate.
  rewrite Hk, Hio, Hu. simpl. rewrite Hc.
  by destruct (update_fails io).
Qed.

(** C1: [completeUser] is one-time.  On an account that is completed, a call
    leaves the collection as it is, and with a valid payload and a lookup
    that does not fail it reports [already_authenticated]; a call that
    succeeds found the account not completed and sets [completed] to true;
    a call that does not succeed changes nothing. *)
Theorem completeUser_one_time io id data db k u :
  identifier id = Some k → db !! k = Some u →
  (truthy (field u "completed") = true →
     db_after (completeUser io id data db) = db
     ∧ (valid_payload id data = true → findById_fails io = false →
        events (completeUser io id data db) = [Callback_err already_authenticated]))
  ∧ (events (completeUser io id data db) = [Callback_ok JUndefined] →
       truthy (field u "completed") = false
       ∧ ∃ u', db_after (completeUser io id data db) = <[k := u']> db
               ∧ u' !! "completed" = Some (JBool true))
  ∧ (events (completeUser io id data db) ≠ [Callback_ok JUndefined] →
       db_after (completeUser io id data db) = db).
Proof.
  intros Hk Hu.
  assert (truthy (field u "completed") = true → valid_payload id data = true →
          findById_fails io = false →
          completeUser io id data db = fail db already_authenticated) as Hagain.
  { intros Hdone Hv Hio.
    destruct (completeUser_passes io id data db Hv)
      as (s & phone & n & err & country & Hs & _ & _ & _ & _ & _ & ->).
    apply (resolved_completed io id s _ db u); [done| |done].
    apply account_Some. by exists k. }
  destruct (completeUser_shape io id data db)
    as [[Hdb Hev]|(s & phone & n & err & country & k' & u' & _ & _ & _ & _ & _ & _
                   & Hk' & Ha & Hc & _ & Hs)].
  - split; [|done].
    intros Hdone. split; [done|].
    intros Hv Hio. by rewrite Hagain.
  - rewrite Hk in Hk'. injection Hk' as <-.
    apply account_Some in Ha as (k' & Hk' & _ & Ha).
    rewrite Hk in Hk'. injection Hk' as <-.
    rewrite Hu in Ha. injection Ha as <-.
    rewrite Hs. simpl. split; [congruence|]. split; [|done].
    intros _. split; [done|]. eexists. split; [done|].
    unfold completeUser_set. by simplify_map_eq.
Qed.

Lemma parseInt_truthy v n : parseInt v = Some n → n ≠ 0 → truthy v = true.
Proof.
  destruct v as [| |[]|z|s|?|?]; try done.
  - simpl. destruct (Z.eqb_spec z 0) as [->|]; [|done].
    by intros [= <-].
  - by destruct s.
Qed.

(** C7: the bounds of the birth year are inclusive.  With identifier, name,
    phone and gender in order, a [birth_year] that parses to an integer
    below 1920 or above 2020 (1919 and 2021 among them) is answered with
    [bad_request]; one that parses to an integer from 1920 to 2020 (the two
    bounds among them) passes the check and, when the country resolves, the
    account is there and not completed and the update does not fail, the
    call succeeds and stores the parsed integer. *)
Theorem completeUser_birth_year io id data db n :
  well_formed id data = true → name_ok data = true →
  phone_ok data = true → gender_ok data = true →
  parseInt (get data "birth_year") = Some n →
  (n < 1920 ∨ 2020 < n → completeUser io id data db = fail db bad_request)
  ∧ (1920 ≤ n ≤ 2020 →
       birth_year_ok data = true
       ∧ (country_ok data = true →
          ∀ u, account io id db = Some u →
               truthy (field u "completed") = false →
               update_fails io = false →
               events (completeUser io id data db) = [Callback_ok JUndefined]
               ∧ ∃ k u', identifier id = Some k
                         ∧ db_after (completeUser io id data db) !! k = Some u'
                         ∧ u' !! "birth_year" = Some (JNum n))).
Proof.
  intros Hw Hn Hp Hg Hparse.
  assert (converts (get data "birth_year") = true) as Hconv.
  { unfold parseInt in Hparse.
    destruct (toString (get data "birth_year")) eqn:Hs; [|done].
    by eapply converts_Some. }
  split.
  - intros Hout. pose proof (completeUser_payload io id data db) as Hpay.
    revert Hpay. unfold checks. cbn [take].
    pose proof Hw as (-> & -> & -> & s & Hs & _)%well_formed_Some.
    rewrite (converts_Some _ _ Hs), Hw, Hn, (phone_ok_textual _ Hp), Hp, Hg, Hconv.
    rewrite andb_false_r. simpl.
    unfold birth_year_ok. rewrite Hparse.
    assert ((1920 <=? n) && (n <=? 2020) = false) as -> by lia.
    by rewrite andb_false_r.
  - intros Hin.
    assert (birth_year_ok data = true) as Hb.
    { unfold birth_year_ok. rewrite Hparse, (parseInt_truthy _ _ Hparse) by lia. lia. }
    split; [done|]. intros Hc u Ha Hnot Hup.
    destruct (completeUser_passes io id data db)
      as (s & phone & n' & err & country & Hs & _ & _ & Hparse' & _ & _ & ->).
    { unfold valid_payload. by rewrite Hw, Hn, Hp, Hg, Hb, Hc. }
    rewrite Hparse in Hparse'. injection Hparse' as <-.
    pose proof Ha as (k & Hk & _)%account_Some.
    rewrite (resolved_update _ _ _ _ _ _ _ Hs Hk Ha Hnot), Hup. simpl.
    split; [done|]. exists k. eexists. rewrite lookup_insert_eq.
    split; [done|]. split; [done|].
    unfold completeUser_set. by simplify_map_eq.
Qed.

(** The checks of profile completion are decided in their order: the call
    does what the first check that does not pass asks for, that is, it
    reports the error of a check that fails, and where evaluating a check
    raises (the identifier or the birth year has a [toString] of its own,
    the phone is no string) or [ObjectId] throws at the identifier, the
    exception escapes and the callback is not invoked; in each of these
    cases the collection is left alone.  When every check passes, the
    account is updated and made completed, unless the update fails. *)
Theorem completeUser_first_failure io id data db :
  match first_failure (checks io id data db) with
  | Fails e => completeUser io id data db = fail db e
  | Raises => completeUser io id data db = raise db
  | Throws => completeUser io id data db = throw db
  | Passes =>
      ∃ k u set,
        identifier id = Some k ∧ account io id db = Some u
        ∧ set u !! "completed" = Some (JBool true)
        ∧ completeUser io id data db =
            if update_fails io then fail db database_error
            else succeed (<[k := set u]> db)
  end.
Proof.
  rewrite first_failure_split.
  pose proof (completeUser_payload io id data db) as Hp.
  destruct (first_failure (take 6 (checks io id data db))); try done.
  destruct Hp as (s & phone & n & err & country & Hs & _ & _ & _ & _ & _ & ->).
  pose proof (completeUser_resolved_cases io id data s
                (completeUser_set data (JStr (split_join phone)) n country) db Hs) as Hq.
  destruct (first_failure (drop 6 (checks io id data db))); try done.
  destruct Hq as (k & u & Hk & Ha & _ & ->).
  eexists k, u, _. repeat split; try done.
  unfold completeUser_set. by simplify_map_eq.
Qed.

(** C6: where the order of the checks breaks.  With identifier and name in
    order, a phone that is truthy and not a string (a number, [true], an
    array, an object) makes [data.phone.split] raise a TypeError: the call
    never invokes its callback, neither with [phone_validation] nor with
    the error of a later check, and leaves the collection alone. *)
Theorem completeUser_phone_not_string io id data db :
  well_formed id data = true → name_ok data = true →
  truthy (get data "phone") = true → is_string (get data "phone") = false →
  completeUser io id data db = {| db_after := db; events := [TypeError] |}.
Proof.
  intros Hw Hn Ht Hs. pose proof (completeUser_payload io id data db) as Hpay.
  revert Hpay. unfold checks. cbn [take].
  pose proof Hw as (-> & -> & -> & s & Hid & _)%well_formed_Some.
  rewrite (converts_Some _ _ Hid), Hw, Hn. unfold phone_textual.
  by rewrite Ht, Hs.
Qed.

End CompleteUser.

(** *** Profile completion on the test double *)

Lemma completeUser_one_time_witness :
  db_after (completeUser (H := test_double) (calm id_a) (JStr id_a)
              (profile (JNum 1995)) db_done) = db_done
  ∧ events (completeUser (H := test_double) (calm id_a) (JStr id_a)
              (profile (JNum 1995)) db_done)
    = [Callback_err already_authenticated].
Proof.
  destruct (completeUser_one_time (H := test_double) (calm id_a) (JStr id_a)
              (profile (JNum 1995)) db_done id_a account_done) as [Hdone _].
  { reflexivity. }
  { reflexivity. }
  destruct Hdone as [Hdb Hev].
  { reflexivity. }
  split; [exact Hdb|]. apply Hev; reflexivity.
Defined.

Lemma completeUser_birth_year_witness :
  events (completeUser (H := test_double) (calm id_a) (JStr id_a)
            (profile (JStr (lit "2020"))) db_a) = [Callback_ok JUndefined]
  ∧ ∃ k u', identifier (H := test_double) (JStr id_a) = Some k
          ∧ db_after (completeUser (H := test_double) (calm id_a) (JStr id_a)
                        (profile (JStr (lit "2020"))) db_a) !! k = Some u'
          ∧ u' !! "birth_year" = Some (JNum 2020).
Proof.
  destruct (completeUser_birth_year (H := test_double) (calm id_a) (JStr id_a)
              (profile (JStr (lit "2020"))) db_a 2020) as [_ Hin];
    try (reflexivity).
  destruct Hin as [_ Hdone]; [lia|].
  apply (Hdone eq_refl account_a); reflexivity.
Defined.

Lemma completeUser_phone_not_string_witness :
  completeUser (H := test_double) (calm id_a) (JStr id_a)
    (profile_of (JNum 5551234567) (JNum 1995) (JStr (lit "US"))) db_a
  = {| db_after := db_a; events := [TypeError] |}.
Proof.
  apply (completeUser_phone_not_string (H := test_double));
    reflexivity.
Defined.

Example completeUser_1919 :
  completeUser (H := test_double) (calm id_a) (JStr id_a) (profile (JNum 1919)) db_a
  = fail db_a bad_request.
Proof. reflexivity. Qed.

Example completeUser_1920 :
  events (completeUser (H := test_double) (calm id_a) (JStr id_a) (profile (JNum 1920)) db_a)
  = [Callback_ok JUndefined].
Proof. reflexivity. Qed.

Example completeUser_2021 :
  completeUser (H := test_double) (calm id_a) (JStr id_a) (profile (JStr (lit "2021"))) db_a
  = fail db_a bad_request.
Proof. reflexivity. Qed.

Example scenario_completed :
  db_after (completeUser (H := test_double) (calm id_a) (JStr id_a) (profile (JNum 1995)) db_a)
  = db_done.
Proof. reflexivity. Qed.

Lemma completeUser_first_failure_witness :
  completeUser (H := test_double) (calm id_a)
    (JStr (lit "0x74c3442b4e90001c72b747")) (profile (JNum 1995)) db_a
  = throw db_a.
Proof.
  exact (completeUser_first_failure (H := test_double) (calm id_a)
           (JStr (lit "0x74c3442b4e90001c72b747")) (profile (JNum 1995)) db_a).
Defined.

Example completeUser_own_toString :
  completeUser (H := test_double) (calm id_a) (JStr id_a)
    (profile (JObj {[ "toString" := JNum 1 ]})) db_a
  = raise db_a.
Proof. reflexivity. Qed.

Example completeUser_unresolvable_and_absent :
  completeUser (H := test_double) (calm id_a) (JStr id_a)
    (profile_of (JStr (lit "555 123 4567")) (JNum 1995) (JStr (lit "XX"))) ∅
  = fail ∅ bad_request.
Proof. reflexivity. Qed.
(** ** Authentication *)

Section FindUser.
Context `{Collaborators}.

(** What [findUser] does once the account is found and the password
    verified. *)
Lemma findUser_verified io e p db id u :
  e ≠ [] → p ≠ [] → isEmail e = true → findOne_fails io = false →
  findOne_email (trim e) db = Some (id, u) →
  verifyPassword (trim p) (field u "password") = true →
  findUser io (JStr e) (JStr p) db =
    if truthy (field u "gender")
       && (loose_eq (field u "gender") erkek || loose_eq (field u "gender") kadin)
    then
      if update_fails io
      then {| db_after := db;
              events := Callback_err database_error :: getUser_absent |}
      else
        let u' := <["gender" := JStr (if loose_eq (field u "gender") erkek
                                     then lit "male" else lit "female")]> u in
        {| db_after := <[id := u']> db; events := getUser (Some (id, u')) |}
    else {| db_after := db; events := getUser (Some (id, u)) |}.
Proof.
  intros He Hp Hmail Hio Hfind Hver. unfold findUser. simpl.
  rewrite !bool_decide_eq_false_2 by done. simpl.
  rewrite Hmail, Hio, Hfind, Hver. simpl.
  destruct (_ && _); [|done].
  unfold findByIdAndUpdate. destruct (update_fails io); [done|].
  apply findOne_email_Some in Hfind as [-> _]. done.
Qed.

Lemma getUser_sanitized id u result :
  getUser (Some (id, u)) = [Callback_ok result] →
  ∃ o, result = JObj o ∧ o !! "password" = None.
Proof.
  simpl. intros [= <-]. eexists. split; [done|].
  rewrite lookup_insert_ne by done. apply lookup_delete_eq.
Qed.

Lemma loose_eq_string v s :
  (∀ l, v ≠ JArr l) → v ≠ JStr s → loose_eq v s = false.
Proof.
  intros Harr Hs. destruct v as [| |?|?|t|l|?]; try done.
  - simpl. apply bool_decide_eq_false_2. congruence.
  - by destruct (Harr l).
Qed.

Lemma findUser_success io email password db result :
  events (findUser io email password db) = [Callback_ok result] →
  ∃ e p id u,
    email = JStr e ∧ password = JStr p ∧ e ≠ [] ∧ p ≠ []
    ∧ isEmail e = true ∧ findOne_fails io = false
    ∧ findOne_email (trim e) db = Some (id, u)
    ∧ verifyPassword (trim p) (field u "password") = true.
Proof.
  unfold findUser.
  destruct (truthy email) eqn:He; [|done].
  destruct (truthy password) eqn:Hp; [|done]. simpl.
  destruct email as [| |?|?|e|?|?]; try done.
  destruct (isEmail e) eqn:Hmail; [|done]. simpl.
  destruct (findOne_fails io); [done|].
  destruct (findOne_email (trim e) db) as [[id u]|] eqn:Hfind; [|done].
  destruct password as [| |?|?|p|?|?]; try done.
  destruct (verifyPassword (trim p) (field u "password")) eqn:Hver; [|done].
  intros _. exists e, p, id, u. simpl in He, Hp.
  apply negb_true_iff, bool_decide_eq_false in He, Hp. done.
Qed.

(** C5: a successful [findUser] (one callback, without error) found the
    account of the trimmed email; if its stored gender is ['erkek'] the call
    rewrites it to
    ['male'], if it is ['kadın'] to ['female']; a stored gender that is neither
    of the two (and, as the schema types it, no array) leaves the
    collection as it was; and the value returned is an object without a
    [password] field. *)
Theorem findUser_normalizes io email password db result :
  events (findUser io email password db) = [Callback_ok result] →
  ∃ id u,
    db !! id = Some u
    ∧ (∃ e, email = JStr e ∧ u !! "email" = Some (JStr (trim e)))
    ∧ (field u "gender" = JStr erkek →
       db_after (findUser io email password db)
         = <[id := <["gender" := JStr (lit "male")]> u]> db)
    ∧ (field u "gender" = JStr kadin →
       db_after (findUser io email password db)
         = <[id := <["gender" := JStr (lit "female")]> u]> db)
    ∧ (field u "gender" ≠ JStr erkek → field u "gender" ≠ JStr kadin →
       (∀ l, field u "gender" ≠ JArr l) →
       db_after (findUser io email password db) = db)
    ∧ ∃ o, result = JObj o ∧ o !! "password" = None.
Proof.
  intros Hok.
  destruct (findUser_success _ _ _ _ _ Hok)
    as (e & p & id & u & -> & -> & He & Hp & Hmail & Hio & Hfind & Hver).
  exists id, u. split; [by apply findOne_email_Some in Hfind as [? _]|].
  split; [exists e; by apply findOne_email_Some in Hfind as [_ ?]|].
  revert Hok. rewrite (findUser_verified io e p db id u) by done.
  destruct (truthy (field u "gender")
            && (loose_eq (field u "gender") erkek || loose_eq (field u "gender") kadin))
    eqn:Hlegacy.
  - destruct (update_fails io).
    { simpl. intros [=]. }
    cbv zeta. simpl db_after. simpl events. intros Hres.
    repeat split.
    + by intros ->.
    + by intros ->.
    + intros H1 H2 H3.
      rewrite !loose_eq_string, andb_false_r in Hlegacy by done. done.
    + by eapply getUser_sanitized.
  - simpl db_after. simpl events. intros Hres.
    repeat split.
    + intros Hg. by rewrite Hg in Hlegacy.
    + intros Hg. by rewrite Hg in Hlegacy.
    + by eapply getUser_sanitized.
Qed.

(** C2, amended: when the stored gender is one of the two legacy values and
    the update that normalizes it fails, the failure reaches the caller: the
    first thing [findUser] does is invoke the callback with
    [database_error], and the collection is left as it was. *)
Theorem findUser_update_failure io e p db id u :
  e ≠ [] → p ≠ [] → isEmail e = true → findOne_fails io = false →
  findOne_email (trim e) db = Some (id, u) →
  verifyPassword (trim p) (field u "password") = true →
  field u "gender" = JStr erkek ∨ field u "gender" = JStr kadin →
  update_fails io = true →
  db_after (findUser io (JStr e) (JStr p) db) = db
  ∧ ∃ rest, events (findUser io (JStr e) (JStr p) db)
            = Callback_err database_error :: rest.
Proof.
  intros He Hp Hmail Hio Hfind Hver Hg Hup.
  rewrite (findUser_verified io e p db id u) by done.
  rewrite Hup. destruct Hg as [-> | ->]; simpl; eauto.
Qed.
End FindUser.

(** *** Authentication on the test double *)

Lemma findUser_normalizes_witness :
  db_after (findUser (H := test_double) (calm id_a) (JStr (lit "a@b.com"))
              (JStr (lit "secret")) db_erkek)
  = <[id_a := <["gender" := JStr (lit "male")]> account_erkek]> db_erkek.
Proof.
  edestruct (findUser_normalizes (H := test_double) (calm id_a)
               (JStr (lit "a@b.com")) (JStr (lit "secret")) db_erkek)
    as (id & u & Hu & _ & Hmale & _).
  { reflexivity. }
  unfold db_erkek in Hu. apply lookup_singleton_Some in Hu as [<- <-].
  apply Hmale. reflexivity.
Defined.

Lemma findUser_update_failure_witness :
  ∃ rest, events (findUser (H := test_double) update_down (JStr (lit "a@b.com"))
                    (JStr (lit "secret")) db_kadin)
          = Callback_err database_error :: rest.
Proof.
  apply (findUser_update_failure (H := test_double) update_down
           (lit "a@b.com") (lit "secret") db_kadin id_a account_kadin);
    try done; try (reflexivity).
  right. reflexivity.
Defined.

(** C2, as the specification has it, fails: with a stored ['kadın'] and an
    update that fails, the callback is invoked with [database_error], and
    no invocation reports success. *)
Lemma findUser_update_failure_reported :
  field account_kadin "gender" = JStr kadin
  ∧ update_fails update_down = true
  ∧ events (findUser (H := test_double) update_down (JStr (lit "a@b.com"))
              (JStr (lit "secret")) db_kadin)
    = [Callback_err database_error; Callback_err document_not_found].
Proof. vm_compute. done. Qed.

(** ** Account creation *)

Section CreateUser.
Context `{Collaborators}.

Lemma createUser_checked io data db email password :
  get data "email" = JStr email → get data "password" = JStr password →
  email ≠ [] → password ≠ [] → isEmail email = true →
  createUser io data db =
    if (Z.of_nat (length password) <? 6) then fail db password_length
    else
      match invitor data with
      | None => raise db
      | Some code =>
          match save io (newUser email password code) db with
          | (db', DuplicateKey) => fail db' email_duplication
          | (db', SaveFailed) => fail db' database_error
          | (db', Saved u) => {| db_after := db'; events := getUser (Some u) |}
          end
      end.
Proof.
  intros He Hp Hne Hpw Hmail. unfold createUser. rewrite He, Hp. simpl.
  destruct data; try done. simpl.
  rewrite !bool_decide_eq_false_2 by done. simpl.
  by rewrite Hmail.
Qed.

(** The referral code is used when it is absent (falsy) or converts to a
    string, and only then. *)
Lemma invitor_Some data :
  (truthy (get data "code") = true → converts (get data "code") = true) ↔
  is_Some (invitor data).
Proof.
  unfold invitor, converts. destruct (truthy (get data "code")); [|by split].
  destruct (toString (get data "code")) as [code|].
  - split; [done|]. intros _ _. by apply bool_decide_eq_true.
  - split; [|by intros []]. intros Hc. specialize (Hc eq_refl).
    apply bool_decide_eq_true in Hc. by destruct Hc.
Qed.

Lemma invitor_None data :
  truthy (get data "code") = true ∧ converts (get data "code") = false ↔
  invitor data = None.
Proof.
  unfold invitor, converts. destruct (truthy (get data "code")); [|by split; [intros []|]].
  destruct (toString (get data "code")) as [code|].
  - split; [|done]. intros [_ Hc]. apply bool_decide_eq_false in Hc.
    by destruct Hc.
  - split; [done|]. intros _. split; [done|]. apply bool_decide_eq_false. by intros [].
Qed.

Lemma newUser_fields email password code :
  newUser email password code !! "email" = Some (JStr email)
  ∧ newUser email password code !! "password" = Some (JStr password)
  ∧ newUser email password code !! "agreement_approved" = Some (JBool true)
  ∧ newUser email password code !! "completed" = Some (JBool false)
  ∧ newUser email password code !! "gender" = Some JNull
  ∧ newUser email password code !! "invitor" = Some code.
Proof. repeat split; reflexivity. Qed.

Lemma hashPassword_fields email password code k :
  k ≠ "password" →
  hashPassword (newUser email password code) !! k = newUser email password code !! k.
Proof.
  intros Hk. unfold hashPassword.
  destruct (newUser_fields email password code) as (_ & -> & _).
  by rewrite lookup_insert_ne.
Qed.

Lemma hashPassword_password email password code :
  hashPassword (newUser email password code) !! "password"
  = Some (JStr (hash password)).
Proof.
  unfold hashPassword.
  destruct (newUser_fields email password code) as (_ & -> & _).
  by rewrite lookup_insert_eq.
Qed.

Lemma save_cases io email password code db :
  save io (newUser email password code) db =
    if save_fails io then (db, SaveFailed)
    else if bool_decide (is_Some (db !! new_id io))
            || bool_decide (is_Some (findOne_email email db))
    then (db, DuplicateKey)
    else (<[new_id io := hashPassword (newUser email password code)]> db,
          Saved (new_id io, hashPassword (newUser email password code))).
Proof.
  unfold save. destruct (save_fails io); [done|].
  rewrite hashPassword_fields by done.
  by destruct (newUser_fields email password code) as (-> & _).
Qed.



(** C8: with a well-formed email and a password of at least 6 code units,
    [createUser] either creates nothing, and then reports one error or
    raises, or creates one account that has [agreement_approved] true,
    [completed] false and, as its password, the hash of the one supplied.
    It does create it when the save does not fail, neither the email nor
    the new [_id] is taken, and the referral code is absent or converts to
    a string; it raises when the referral code does not convert.  With a
    password of 5 code units it reports [password_length] and creates
    nothing. *)
Theorem createUser_creates io data db email password :
  get data "email" = JStr email → get data "password" = JStr password →
  email ≠ [] → isEmail email = true →
  ((6 ≤ length password)%nat →
     (db_after (createUser io data db) = db
      ∧ ((∃ e, events (createUser io data db) = [Callback_err e])
         ∨ events (createUser io data db) = [TypeError]))
     ∨ (∃ u, db !! new_id io = None
           ∧ db_after (createUser io data db) = <[new_id io := u]> db
           ∧ u !! "agreement_approved" = Some (JBool true)
           ∧ u !! "completed" = Some (JBool false)
           ∧ u !! "password" = Some (JStr (hash password))
           ∧ events (createUser io data db) = getUser (Some (new_id io, u))))
  ∧ ((6 ≤ length password)%nat →
     save_fails io = false → db !! new_id io = None →
     findOne_email email db = None →
     (truthy (get data "code") = true → converts (get data "code") = true) →
     ∃ code, invitor data = Some code
             ∧ db_after (createUser io data db) !! new_id io
               = Some (hashPassword (newUser email password code)))
  ∧ ((6 ≤ length password)%nat →
     truthy (get data "code") = true → converts (get data "code") = false →
     createUser io data db = raise db)
  ∧ (length password = 5%nat →
     createUser io data db = fail db password_length).
Proof.
  intros He Hp Hne Hmail.
  assert ((5 ≤ length password)%nat →
    createUser io data db =
      if (Z.of_nat (length password) <? 6) then fail db password_length
      else
        match invitor data with
        | None => raise db
        | Some code =>
            match save io (newUser email password code) db with
            | (db', DuplicateKey) => fail db' email_duplication
            | (db', SaveFailed) => fail db' database_error
            | (db', Saved u) => {| db_after := db'; events := getUser (Some u) |}
            end
        end) as Hcreate.
  { intros Hlen. apply createUser_checked; try done.
    intros ->. simpl in Hlen. lia. }
  split; [|split; [|split]].
  - intros Hlen. rewrite Hcreate by lia.
    assert ((Z.of_nat (length password) <? 6) = false) as -> by lia.
    destruct (invitor data) as [code|]; [|left; eauto].
    rewrite save_cases.
    destruct (save_fails io); [left; eauto|].
    destruct (bool_decide (is_Some (db !! new_id io))) eqn:Hid; [left; eauto|].
    destruct (bool_decide (is_Some (findOne_email email db))); [left; eauto|].
    right. simpl. eexists. split.
    { apply bool_decide_eq_false in Hid. by apply eq_None_not_Some. }
    split; [done|].
    rewrite !hashPassword_fields, hashPassword_password by done.
    by destruct (newUser_fields email password code) as (_ & _ & -> & -> & _).
  - intros Hlen Hio Hid Hfree [code Hcode]%invitor_Some.
    rewrite Hcreate by lia.
    assert ((Z.of_nat (length password) <? 6) = false) as -> by lia.
    rewrite Hcode, save_cases, Hio, Hid, Hfree. simpl.
    exists code. split; [done|]. apply lookup_insert_eq.
  - intros Hlen Ht Hc. rewrite Hcreate by lia.
    assert ((Z.of_nat (length password) <? 6) = false) as -> by lia.
    by rewrite (proj1 (invitor_None data) (conj Ht Hc)).
  - intros Hlen. rewrite Hcreate by lia. by rewrite Hlen.
Qed.

Lemma createUser_success io data db email password result :
  get data "email" = JStr email → get data "password" = JStr password →
  events (createUser io data db) = [Callback_ok result] →
  ∃ code,
    email ≠ [] ∧ password ≠ [] ∧ isEmail email = true
    ∧ invitor data = Some code
    ∧ db !! new_id io = None
    ∧ findOne_email email db = None
    ∧ createUser io data db =
        {| db_after := <[new_id io := hashPassword (newUser email password code)]> db;
           events := getUser (Some (new_id io,
                                    hashPassword (newUser email password code))) |}.
Proof.
  intros He Hp.
  destruct (decide (email = [])) as [->|Hne].
  { unfold createUser. rewrite He. simpl. by rewrite !orb_true_r. }
  destruct (decide (password = [])) as [->|Hpw].
  { unfold createUser. rewrite Hp. simpl. by rewrite !orb_true_r. }
  destruct (isEmail email) eqn:Hmail; cycle 1.
  { unfold createUser. rewrite He, Hp, Hmail. simpl. by destruct (_ || _). }
  rewrite (createUser_checked io data db email password) by done.
  destruct (_ <? _); [done|].
  destruct (invitor data) as [code|]; [|done]. rewrite save_cases.
  destruct (save_fails io); [done|].
  destruct (bool_decide (is_Some (db !! new_id io))) eqn:Hid; [done|]. simpl.
  destruct (bool_decide (is_Some (findOne_email email db))) eqn:Hfree; [done|].
  intros _. exists code. repeat split; try done.
  - apply bool_decide_eq_false in Hid. by apply eq_None_not_Some.
  - apply bool_decide_eq_false in Hfree. by apply eq_None_not_Some.
Qed.

Lemma findOne_email_insert_other e db k u :
  findOne_email e db = None → u !! "email" ≠ Some (JStr e) →
  findOne_email e (<[k := u]> db) = None.
Proof.
  intros Hnone Hu.
  destruct (findOne_email e (<[k := u]> db)) as [[id' d']|] eqn:Hf; [|done].
  apply findOne_email_Some in Hf as [Hl He'].
  destruct (decide (k = id')) as [->|Hne].
  - rewrite lookup_insert_eq in Hl. by simplify_eq.
  - rewrite lookup_insert_ne in Hl by done.
    by destruct (findOne_email_None _ _ _ _ Hnone Hl).
Qed.

(** C9, amended: [createUser] stores the email and hashes the password as
    supplied, and [findUser] trims both.  If verification accepts exactly
    the plain text that was hashed, then [findUser] with the email and
    password of a successful [createUser], the email without white space
    around it, reports [password_verification] when the password has
    leading or trailing white space, and returns the sanitized user that
    [createUser] returned when it has none.  With an email that has white
    space around it, and no account at the trimmed address, it reports
    [document_not_found], whatever the password. *)
Theorem createUser_findUser io1 io2 data db email password result :
  (∀ p q, verifyPassword p (JStr (hash q)) = true ↔ p = q) →
  get data "email" = JStr email → get data "password" = JStr password →
  events (createUser io1 data db) = [Callback_ok result] →
  findOne_fails io2 = false →
  (trim email = email → trim password ≠ password →
     findUser io2 (JStr email) (JStr password) (db_after (createUser io1 data db))
     = fail (db_after (createUser io1 data db)) password_verification)
  ∧ (trim email = email → trim password = password →
     findUser io2 (JStr email) (JStr password) (db_after (createUser io1 data db))
     = {| db_after := db_after (createUser io1 data db);
          events := [Callback_ok result] |})
  ∧ (trim email ≠ email → findOne_email (trim email) db = None →
     findUser io2 (JStr email) (JStr password) (db_after (createUser io1 data db))
     = fail (db_after (createUser io1 data db)) document_not_found).
Proof.
  intros Hverify He Hp Hok Hio.
  destruct (createUser_success _ _ _ _ _ _ He Hp Hok)
    as (code & Hne & Hpw & Hmail & _ & _ & Hfree & Hcreate).
  rewrite Hcreate in Hok |- *. simpl db_after. simpl events in Hok.
  assert (hashPassword (newUser email password code) !! "email"
          = Some (JStr email)) as Hemail.
  { rewrite hashPassword_fields by done.
    by destruct (newUser_fields email password code) as (-> & _). }
  assert (field (hashPassword (newUser email password code)) "password"
          = JStr (hash password)) as Hstored.
  { unfold field. by rewrite hashPassword_password. }
  assert (field (hashPassword (newUser email password code)) "gender"
          = JNull) as Hgender.
  { unfold field. rewrite hashPassword_fields by done.
    by destruct (newUser_fields email password code) as (_ & _ & _ & _ & -> & _). }
  revert Hok Hemail Hstored Hgender.
  generalize (hashPassword (newUser email password code)).
  intros u Hok Hemail Hstored Hgender.
  assert (trim email = email →
          findOne_email (trim email) (<[new_id io1 := u]> db)
          = Some (new_id io1, u)) as Hfind.
  { intros ->. by apply findOne_email_insert. }
  split; [|split].
  - intros Htrim Hws. unfold findUser. simpl.
    rewrite !bool_decide_eq_false_2 by done. simpl.
    rewrite Hmail, Hio, Hfind, Hstored by done. simpl.
    destruct (verifyPassword (trim password) (JStr (hash password))) eqn:Hv; [|done].
    by apply Hverify in Hv.
  - intros Htrim Hws.
    rewrite (findUser_verified io2 email password _ (new_id io1) u); try done.
    + rewrite Hgender. simpl. by rewrite <- Hok.
    + by apply Hfind.
    + rewrite Hstored. apply Hverify. done.
  - intros Htrim Hnone. unfold findUser. simpl.
    rewrite !bool_decide_eq_false_2 by done. simpl.
    rewrite Hmail, Hio.
    rewrite findOne_email_insert_other; [done|done|].
    rewrite Hemail. congruence.
Qed.
End CreateUser.

(** *** Account creation on the test double *)



Lemma createUser_creates_witness :
  ∃ code, invitor (H := test_double) (signup "secret") = Some code
          ∧ db_after (createUser (H := test_double) (calm id_a)
                        (signup "secret") ∅)
              !! id_a = Some (hashPassword (H := test_double)
                                (newUser (lit "a@b.com") (lit "secret") code)).
Proof.
  assert (lit "a@b.com" ≠ []) as Hne by done.
  pose proof (createUser_creates (H := test_double) (calm id_a)
                (signup "secret") ∅
                (lit "a@b.com") (lit "secret") eq_refl eq_refl Hne eq_refl)
    as (_ & Hnew & _).
  apply Hnew.
  - simpl. lia.
  - reflexivity.
  - reflexivity.
  - reflexivity.
  - intros [=].
Defined.

Example createUser_creates_account :
  db_after (createUser (H := test_double) (calm id_a) (signup "secret") ∅)
  = db_a.
Proof. reflexivity. Qed.

Lemma createUser_findUser_witness :
  findUser (H := test_double) (calm id_a) (JStr (lit "a@b.com"))
    (JStr (lit " secret"))
    (db_after (createUser (H := test_double) (calm id_a) (signup " secret") ∅))
  = fail (db_after (createUser (H := test_double) (calm id_a) (signup " secret") ∅))
      password_verification.
Proof.
  edestruct (createUser_findUser (H := test_double) (calm id_a) (calm id_a)
               (signup " secret") ∅ (lit "a@b.com") (lit " secret"))
    as [Hws _].
  - intros p q. simpl. rewrite bool_decide_eq_true. split; congruence.
  - reflexivity.
  - reflexivity.
  - reflexivity.
  - reflexivity.
  - apply Hws; [reflexivity|]. vm_compute. discriminate.
Defined.

(** C9, as the specification has it, fails: the address has U+3000 in front,
    which the validator takes for a part of the local part and [trim] takes
    off; the password has no white space; and [findUser] with the email and
    password of the successful [createUser] reports [document_not_found]. *)
Lemma createUser_findUser_not_found :
  (∃ result,
     events (createUser (H := test_double) (calm id_a)
               (signup_with (12288%N :: lit "a@b.com") "secret" JNull) ∅)
     = [Callback_ok result])
  ∧ trim (lit "secret") = lit "secret"
  ∧ events (findUser (H := test_double) (calm id_a)
              (JStr (12288%N :: lit "a@b.com")) (JStr (lit "secret"))
              (db_after (createUser (H := test_double) (calm id_a)
                           (signup_with (12288%N :: lit "a@b.com") "secret" JNull) ∅)))
    = [Callback_err document_not_found].
Proof. split; [eexists; reflexivity|]. split; reflexivity. Qed.
(** ** Profile update *)

Section UpdateUser.
Context `{Collaborators}.

Lemma findByIdAndUpdate_cases io k set new db :
  (update_fails io = true ∧ findByIdAndUpdate io k set new db = (db, (true, None)))
  ∨ (update_fails io = false ∧ db !! k = None
     ∧ findByIdAndUpdate io k set new db = (db, (false, None)))
  ∨ (∃ u, update_fails io = false ∧ db !! k = Some u
     ∧ findByIdAndUpdate io k set new db
       = (<[k := set u]> db, (false, Some (k, if new then set u else u)))).
Proof.
  unfold findByIdAndUpdate. destruct (update_fails io); [by left|].
  destruct (db !! k) as [u|]; [right; right; by exists u|right; by left].
Qed.

Lemma framed_refl k fields db : framed k fields db db.
Proof. split; [done|]. intros u Hu. by exists u. Qed.

Lemma framed_insert k fields db u u' :
  db !! k = Some u →
  (∀ f, f ∉ fields → u' !! f = u !! f) →
  framed k fields db (<[k := u']> db).
Proof.
  intros Hu Hset. split.
  - intros k' Hk. by rewrite lookup_insert_ne.
  - intros u0 Hu0. rewrite Hu in Hu0. injection Hu0 as <-.
    exists u'. by rewrite lookup_insert_eq.
Qed.

(** Every run of [updateUser] past its first test, by what it leaves
    behind: nothing changes and no success is reported, or the document of
    the identifier is updated on [name], [phone], [city] and [town]. *)
Lemma updateUser_lookup_cases io s data db :
  (db_after (updateUser_lookup io s data db) = db
   ∧ events (updateUser_lookup io s data db) ≠ [Callback_ok JUndefined]
   ∧ ∀ e, Callback_err e ∈ events (updateUser_lookup io s data db) →
          db_after (updateUser_lookup io s data db) = db)
  ∨ (∃ k u u',
       ObjectId (JStr s) = Some k ∧ db !! k = Some u
       ∧ (∀ f, f ∉ ["name"; "phone"; "city"; "town"] → u' !! f = u !! f)
       ∧ updateUser_lookup io s data db = succeed (<[k := u']> db)).
Proof.
  unfold updateUser_lookup, findById, findByIdAndUpdate.
  destruct (ObjectId (JStr s)) as [k|]; [|by left].
  destruct (findById_fails io); [by left|].
  destruct (db !! k) as [u|] eqn:Hu; [|by left]. simpl.
  set (name := if truthy (get data "name") && is_string (get data "name")
               then get data "name" else field u "name").
  destruct (truthy (get data "city") && truthy (get data "town")).
  - destruct (validateCityAndTown _ _); [|by left]. simpl.
    destruct (updateUser_phone data u) as [phone|]; [|by left].
    destruct (update_fails io); [by left|].
    right. exists k, u. eexists. split; [done|]. split; [done|].
    split; [|reflexivity]. intros f Hf.
    rewrite !lookup_insert_ne; [done|set_solver..].
  - destruct (updateUser_phone data u) as [phone|]; [|by left].
    destruct (update_fails io); [by left|].
    right. exists k, u. eexists. split; [done|]. split; [done|].
    split; [|reflexivity]. intros f Hf.
    rewrite !lookup_insert_ne; [done|set_solver..].
Qed.

(** Every call of [updateUser], by what it leaves behind. *)
Lemma updateUser_cases io id data db :
  (db_after (updateUser io id data db) = db
   ∧ events (updateUser io id data db) ≠ [Callback_ok JUndefined]
   ∧ ∀ e, Callback_err e ∈ events (updateUser io id data db) →
          db_after (updateUser io id data db) = db)
  ∨ (∃ k u u',
       identifier id = Some k ∧ db !! k = Some u
       ∧ (∀ f, f ∉ ["name"; "phone"; "city"; "town"] → u' !! f = u !! f)
       ∧ updateUser io id data db = succeed (<[k := u']> db)).
Proof.
  unfold updateUser, identifier.
  destruct (truthy id); [|by left].
  destruct (toString id) as [s|]; [|by left]. cbn [negb mbind option_bind].
  destruct (_ || _); [by left|].
  apply updateUser_lookup_cases.
Qed.

(** C10: the frame of [updateUser].  No other document changes; in the
    target document every field other than [name], [phone], [city] and
    [town] keeps its value; and a call that reports an error, and any call
    that does not report success, leaves the collection as it was. *)
Theorem updateUser_frame io id data db :
  (∀ k, identifier id ≠ Some k →
     db_after (updateUser io id data db) !! k = db !! k)
  ∧ (∀ k u, identifier id = Some k → db !! k = Some u →
       ∃ u', db_after (updateUser io id data db) !! k = Some u'
             ∧ ∀ f, f ∉ ["name"; "phone"; "city"; "town"] → u' !! f = u !! f)
  ∧ (∀ e, Callback_err e ∈ events (updateUser io id data db) →
     db_after (updateUser io id data db) = db)
  ∧ (events (updateUser io id data db) ≠ [Callback_ok JUndefined] →
     db_after (updateUser io id data db) = db).
Proof.
  destruct (updateUser_cases io id data db)
    as [(Hdb & Hev & Herr)|(k & u & u' & Hk & Hu & Hkeep & Heq)].
  - rewrite Hdb. repeat split; try done. intros k u _ Hu. by exists u.
  - rewrite Heq. simpl. split; [|split; [|split]].
    + intros k' Hk'. rewrite lookup_insert_ne; [done|]. congruence.
    + intros k' u0 Hk' Hu0. rewrite Hk in Hk'. injection Hk' as <-.
      rewrite Hu in Hu0. injection Hu0 as <-.
      exists u'. by rewrite lookup_insert_eq.
    + intros e He. apply list_elem_of_singleton in He. done.
    + done.
Qed.

(** C3: where [updateUser] departs from its contract.  Its first test asks
    for [typeof data] to be ['string'], so every payload that is an object,
    one that supplies [city] and no [town] among them, is answered with
    [bad_request] and nothing is updated.  (Before it looks at the payload
    the test converts the identifier: at one that has a [toString] of its
    own the call raises instead, and nothing is updated either.) *)
Theorem updateUser_object_refused io id o db :
  updateUser io id (JObj o) db =
    if truthy id && negb (converts id) then raise db else fail db bad_request.
Proof.
  unfold updateUser, converts. destruct (truthy id); [|done].
  destruct (toString id) as [s|]; cbn [negb andb].
  - rewrite bool_decide_eq_true_2 by done. simpl. by rewrite !orb_true_r.
  - by rewrite bool_decide_eq_false_2 by (by intros []).
Qed.

(** Past its first test [updateUser] does what its contract says of a
    payload with [city] and no [town], when the phone is absent or converts
    to a string: the country service is not asked, [name] and [phone] are
    written, each falling back to the stored value, and the call
    succeeds. *)
Lemma updateUser_lookup_city_only io s data db k u phone :
  ObjectId (JStr s) = Some k → findById_fails io = false → db !! k = Some u →
  truthy (get data "city") = true → truthy (get data "town") = false →
  update_fails io = false → updateUser_phone data u = Some phone →
  updateUser_lookup io s data db =
    succeed
      (<[k := <["name" := if truthy (get data "name") && is_string (get data "name")
                          then get data "name" else field u "name"]>
                (<["phone" := phone]> u)]> db).
Proof.
  intros Hk Hio Hu Hcity Htown Hup Hphone.
  unfold updateUser_lookup, findById. rewrite Hk, Hio, Hu. simpl.
  rewrite Hcity, Htown, Hphone. simpl. unfold findByIdAndUpdate.
  by rewrite Hup, Hu.
Qed.

End UpdateUser.

(** *** Profile update on the test double *)

Example updateUser_city_refused :
  updateUser (H := test_double) (calm id_a) (JStr id_a)
    (JObj {[ "city" := JStr (lit "Ankara") ]}) db_a
  = fail db_a bad_request.
Proof. reflexivity. Qed.

Example updateUser_lookup_city :
  events (updateUser_lookup (H := test_double) (calm id_a) id_a
            (JObj {[ "city" := JStr (lit "Ankara") ]}) db_a)
  = [Callback_ok JUndefined].
Proof. reflexivity. Qed.


(** ** The scenario of the specification

    Create the account, authenticate, complete the profile, and try to
    complete it again. *)

Example scenario :
  createUser (H := test_double) (calm id_a) (signup "secret") ∅
  = {| db_after := db_a; events := getUser (H := test_double) (Some (id_a, account_a)) |}
  ∧ findUser (H := test_double) (calm id_a) (JStr (lit "a@b.com"))
      (JStr (lit "secret")) db_a
    = {| db_after := db_a; events := getUser (H := test_double) (Some (id_a, account_a)) |}
  ∧ (∃ o, getUser (H := test_double) (Some (id_a, account_a)) = [Callback_ok (JObj o)]
          ∧ o !! "completed" = Some (JBool false) ∧ o !! "password" = None)
  ∧ completeUser (H := test_double) (calm id_a) (JStr id_a) (profile (JNum 1995)) db_a
    = succeed db_done
  ∧ completeUser (H := test_double) (calm id_a) (JStr id_a) (profile (JNum 1995)) db_done
    = fail db_done already_authenticated.
Proof.
  split; [reflexivity|].
  split; [reflexivity|].
  split; [eexists; split; [reflexivity|split; reflexivity]|].
  split; reflexivity.
Qed.
(** * Further properties *)

(** ** Frames and invariants *)

Lemma same_on_refl keep db : same_on keep db db.
Proof. intros k. by destruct (db !! k). Qed.

Lemma same_on_insert keep db k d d' :
  db !! k = Some d → (∀ f, keep f → d' !! f = d !! f) →
  same_on keep db (<[k := d']> db).
Proof.
  intros Hd Hkeep k'. destruct (decide (k = k')) as [<-|Hne].
  - by rewrite Hd, lookup_insert_eq.
  - rewrite lookup_insert_ne by done. by destruct (db !! k').
Qed.

Lemma same_on_unique_emails keep db db' :
  keep "email" → same_on keep db db' → unique_emails db → unique_emails db'.
Proof.
  intros Hkeep Hsame Huniq k1 k2 d1 d2 e H1 H2 He1 He2.
  pose proof (Hsame k1) as Hk1. pose proof (Hsame k2) as Hk2.
  rewrite H1 in Hk1. rewrite H2 in Hk2.
  destruct (db !! k1) as [c1|] eqn:Hc1; [|done].
  destruct (db !! k2) as [c2|] eqn:Hc2; [|done].
  apply (Huniq k1 k2 c1 c2 e); try done.
  - by rewrite <- (Hk1 "email").
  - by rewrite <- (Hk2 "email").
Qed.

Section CompleteUserMore.
Context `{Collaborators}.

(** Every call of [completeUser], by what it leaves behind. *)
Lemma completeUser_cases io id data db :
  (db_after (completeUser io id data db) = db
   ∧ events (completeUser io id data db) ≠ [Callback_ok JUndefined])
  ∨ (∃ k u name phone gender n err country,
       get data "name" = JStr name ∧ name ≠ []
       ∧ get data "phone" = JStr phone
       ∧ split_join phone ≠ [] ∧ isMobilePhone (split_join phone) = true
       ∧ get data "gender" = JStr gender ∧ gender ∈ allowedGenderValues
       ∧ parseInt (get data "birth_year") = Some n ∧ 1920 ≤ n ≤ 2020
       ∧ getCountryWithAlpha2Code (get data "country") = (err, country)
       ∧ identifier id = Some k ∧ db !! k = Some u
       ∧ truthy (field u "completed") = false
       ∧ completeUser io id data db =
           succeed (<[k := completeUser_set data (JStr (split_join phone)) n
                             country u]> db)).
Proof.
  destruct (completeUser_shape io id data db)
    as [?|(s & phone & n & err & country & k & u & _ & _ & Hphone & Hparse & Hn
           & Hcountry & Hk & Ha & Hc & Hf & Heq)]; [by left|].
  right. unfold valid_payload in Hf.
  apply andb_prop in Hf as [Hf _]. apply andb_prop in Hf as [Hf _].
  apply andb_prop in Hf as [Hf Hg]. apply andb_prop in Hf as [Hf Hph].
  apply andb_prop in Hf as [_ Hname].
  unfold name_ok in Hname. unfold phone_ok in Hph. unfold gender_ok in Hg.
  destruct (get data "name") as [| |?|?|name|?|?] eqn:Hgn; try done.
  destruct (get data "gender") as [| |?|?|gender|?|?] eqn:Hgg; try done.
  rewrite Hphone in Hph.
  apply andb_prop in Hph as [Hph1 Hph2].
  apply negb_true_iff, bool_decide_eq_false in Hname, Hph1.
  apply bool_decide_eq_true in Hg.
  apply account_Some in Ha as (k' & Hk' & _ & Ha).
  rewrite Hk in Hk'. injection Hk' as <-.
  exists k, u, name, phone, gender, n, err, country. done.
Qed.

Lemma split_join_no_space s : 32%N ∉ split_join s.
Proof.
  unfold split_join. intros Hin. apply list_elem_of_filter in Hin as [Hne _]. done.
Qed.

Lemma completeUser_same_on io id data db :
  same_on (λ f, f ∉ ["name"; "country"; "phone"; "gender"; "birth_year"; "completed"])
    db (db_after (completeUser io id data db)).
Proof.
  destruct (completeUser_cases io id data db)
    as [[-> _]|(k & u & name & phone & gender & n & err & country & _ & _ & _ & _ & _
                & _ & _ & _ & _ & _ & _ & Hu & _ & ->)].
  - apply same_on_refl.
  - simpl. apply (same_on_insert _ _ _ u); [done|]. intros f Hf.
    unfold completeUser_set. rewrite !lookup_insert_ne; [done|set_solver..].
Qed.

(** The frame of [completeUser]: whatever the arguments, no document is
    added or removed, and every document reads as before on every field
    other than [name], [country], [phone], [gender], [birth_year] and
    [completed]; so [email], [password], the credits and the campaigns are
    never touched.  And a call that changes the collection is a call that
    reports no error. *)
Theorem completeUser_frame io id data db :
  same_on (λ f, f ∉ ["name"; "country"; "phone"; "gender"; "birth_year"; "completed"])
    db (db_after (completeUser io id data db))
  ∧ (db_after (completeUser io id data db) ≠ db →
     events (completeUser io id data db) = [Callback_ok JUndefined]).
Proof.
  split; [apply completeUser_same_on|].
  destruct (completeUser_cases io id data db)
    as [[-> _]|(k & u & name & phone & gender & n & err & country & _ & _ & _ & _ & _
                & _ & _ & _ & _ & _ & _ & _ & _ & ->)]; done.
Qed.

Lemma completeUser_stored io id data db :
  events (completeUser io id data db) = [Callback_ok JUndefined] →
  ∃ k u', identifier id = Some k
        ∧ db_after (completeUser io id data db) !! k = Some u'
        ∧ completed_profile u'
        ∧ u' !! "name" = Some (get data "name")
        ∧ u' !! "gender" = Some (get data "gender")
        ∧ u' !! "birth_year" = JNum <$> parseInt (get data "birth_year")
        ∧ u' !! "country"
          = Some (get (getCountryWithAlpha2Code (get data "country")).2 "alpha2_code").
Proof.
  intros Hok.
  destruct (completeUser_cases io id data db)
    as [[_ Hno]|(k & u & name & phone & gender & n & err & country & Hname & Hne
                & Hphone & Hp1 & Hp2 & Hgender & Hg & Hparse & Hn & Hcountry & Hk
                & Hu & _ & Heq)];
    [done|].
  rewrite Heq. simpl. exists k. eexists.
  split; [done|]. rewrite lookup_insert_eq. split; [done|].
  rewrite Hparse, Hcountry. simpl.
  unfold completed_profile, completeUser_set. rewrite Hname, Hgender.
  split; [|by simplify_map_eq].
  split; [exists name; by simplify_map_eq|].
  split.
  { exists (split_join phone). split; [by simplify_map_eq|].
    split; [apply split_join_no_space|done]. }
  split; [exists gender; by simplify_map_eq|].
  split; [exists n; by simplify_map_eq|]. by simplify_map_eq.
Qed.

(** What a successful [completeUser] leaves in the account is a profile that
    passed the checks: a non-empty name, a phone without spaces that is a
    mobile number, one of the four genders, a birth year from 1920 to 2020
    as a number, [completed] true, and as country the [alpha2_code] of the
    record the country service returned. *)
Theorem completeUser_stores_profile io id data db :
  events (completeUser io id data db) = [Callback_ok JUndefined] →
  ∃ k u', identifier id = Some k
        ∧ db_after (completeUser io id data db) !! k = Some u'
        ∧ completed_profile u'
        ∧ u' !! "name" = Some (get data "name")
        ∧ u' !! "gender" = Some (get data "gender")
        ∧ u' !! "birth_year" = JNum <$> parseInt (get data "birth_year")
        ∧ u' !! "country"
          = Some (get (getCountryWithAlpha2Code (get data "country")).2 "alpha2_code").
Proof. apply completeUser_stored. Qed.

End CompleteUserMore.

Lemma completeUser_stores_profile_witness :
  completed_profile (H := test_double) account_done.
Proof.
  destruct (completeUser_stores_profile (H := test_double) (calm id_a) (JStr id_a)
              (profile (JNum 1995)) db_a) as (k & u' & Hk & Hu' & Hprofile & _).
  { reflexivity. }
  assert (db_after (completeUser (H := test_double) (calm id_a) (JStr id_a)
                      (profile (JNum 1995)) db_a) !! id_a = Some account_done)
    as Hdone by reflexivity.
  change (Some id_a = Some k) in Hk. injection Hk as <-.
  rewrite Hdone in Hu'. by injection Hu' as <-.
Defined.
(** ** Account creation, once more *)

Section CreateUserMore.
Context `{Collaborators}.

(** Every call of [createUser], by what it leaves behind. *)
Lemma createUser_cases io data db :
  (∃ e, createUser io data db = fail db e)
  ∨ (createUser io data db = raise db
     ∧ ∃ email password,
         get data "email" = JStr email ∧ get data "password" = JStr password
         ∧ isEmail email = true ∧ (6 ≤ length password)%nat
         ∧ truthy (get data "code") = true ∧ converts (get data "code") = false)
  ∨ (∃ email password code,
       get data "email" = JStr email ∧ get data "password" = JStr password
       ∧ email ≠ [] ∧ isEmail email = true ∧ (6 ≤ length password)%nat
       ∧ invitor data = Some code
       ∧ save_fails io = false
       ∧ db !! new_id io = None ∧ findOne_email email db = None
       ∧ createUser io data db =
           {| db_after := <[new_id io := hashPassword (newUser email password code)]> db;
              events := getUser (Some (new_id io,
                                       hashPassword (newUser email password code))) |}).
Proof.
  unfold createUser.
  destruct (_ || _) eqn:Hguard; [left; by eexists|].
  destruct (get data "email") as [| |?|?|email|?|?] eqn:He; try (left; by eexists).
  destruct (get data "password") as [| |?|?|password|?|?] eqn:Hp;
    try (left; by eexists).
  destruct (isEmail email) eqn:Hmail; [|left; by eexists]. simpl.
  destruct (Z.ltb_spec (Z.of_nat (length password)) 6) as [Hlen|Hlen];
    [left; by eexists|].
  destruct (invitor data) as [code|] eqn:Hcode; cycle 1.
  { right; left. split; [done|]. exists email, password.
    apply invitor_None in Hcode as [? ?]. repeat split; try done. lia. }
  rewrite save_cases.
  destruct (save_fails io) eqn:Hio; [left; by eexists|].
  destruct (bool_decide (is_Some (db !! new_id io))) eqn:Hid; [left; by eexists|].
  destruct (bool_decide (is_Some (findOne_email email db))) eqn:Hfree;
    [left; by eexists|].
  right; right. exists email, password, code. simpl.
  apply bool_decide_eq_false in Hid, Hfree.
  apply eq_None_not_Some in Hid, Hfree.
  repeat split; try done; try lia.
  intros Hnil. rewrite Hnil in Hguard.
  by destruct (truthy data), (is_object data).
Qed.

(** [createUser] is all or nothing.  Whatever the payload, the collection is
    as it was and the callback is invoked once, with an error; or the
    collection is as it was and a TypeError escapes, the callback not
    invoked; or exactly one document is added, under a new [_id], and the
    callback is invoked once with the sanitized user.  The TypeError is the
    one of a referral code that does not convert to a string, met once email
    and password have passed their checks. *)
Theorem createUser_atomic io data db :
  ((db_after (createUser io data db) = db
    ∧ ((∃ e, events (createUser io data db) = [Callback_err e])
       ∨ events (createUser io data db) = [TypeError]))
   ∨ (∃ u result,
        db !! new_id io = None
        ∧ db_after (createUser io data db) = <[new_id io := u]> db
        ∧ events (createUser io data db) = [Callback_ok result]))
  ∧ (events (createUser io data db) = [TypeError] ↔
     ∃ email password,
       get data "email" = JStr email ∧ get data "password" = JStr password
       ∧ email ≠ [] ∧ isEmail email = true ∧ (6 ≤ length password)%nat
       ∧ truthy (get data "code") = true ∧ converts (get data "code") = false).
Proof.
  destruct (createUser_cases io data db)
    as [[e Heq]|[[Heq (email & password & He & Hp & Hmail & Hlen & Ht & Hc)]
                |(email & password & code & _ & _ & _ & _ & _ & Hcode & _ & Hid & _
                  & Heq)]].
  - rewrite Heq. split; [left; split; [done|]; left; by exists e|].
    split; [done|]. intros (email & password & He & Hp & Hne & Hmail & Hlen & Ht & Hc).
    rewrite (createUser_checked io data db email password) in Heq
      by (try done; intros ->; simpl in Hlen; lia).
    assert ((Z.of_nat (length password) <? 6) = false) as Hl by lia.
    rewrite Hl, (proj1 (invitor_None data) (conj Ht Hc)) in Heq. done.
  - rewrite Heq. split; [left; split; [done|]; by right|].
    split; [|done]. intros _. exists email, password. repeat split; try done.
    intros ->. revert Heq. unfold createUser. rewrite He. simpl.
    by rewrite !orb_true_r.
  - rewrite Heq. split; [right; by eexists _, _|].
    split; [done|]. intros (? & ? & _ & _ & _ & _ & _ & Ht & Hc).
    rewrite (proj1 (invitor_None data) (conj Ht Hc)) in Hcode. done.
Qed.

Lemma invitor_dropped o :
  truthy (get (JObj o) "code") = false
  ∨ (∃ s, toString (get (JObj o) "code") = Some s ∧ isMongoId s = false) →
  invitor (JObj o) = Some JNull ∧ invitor (JObj (delete "code" o)) = Some JNull.
Proof.
  intros Hcode. split.
  - unfold invitor. destruct Hcode as [->|(s & -> & ->)]; [done|].
    by destruct (truthy _).
  - unfold invitor. simpl. by rewrite lookup_delete_eq.
Qed.

(** The referral code of [createUser].  A code that is absent (falsy), or
    converts to a string that is no well-formed identifier, is dropped: the
    call does what it does on the payload without the code.  A code that
    converts to a well-formed identifier is stored, as that string, in the
    [invitor] of the account a successful call creates. *)
Theorem createUser_invitor io o db :
  (truthy (get (JObj o) "code") = false
   ∨ (∃ s, toString (get (JObj o) "code") = Some s ∧ isMongoId s = false) →
   createUser io (JObj o) db = createUser io (JObj (delete "code" o)) db)
  ∧ (∀ result s,
       events (createUser io (JObj o) db) = [Callback_ok result] →
       truthy (get (JObj o) "code") = true →
       toString (get (JObj o) "code") = Some s → isMongoId s = true →
       ∃ u, db_after (createUser io (JObj o) db) !! new_id io = Some u
            ∧ u !! "invitor" = Some (JStr s)).
Proof.
  split.
  - intros [Hfull Hless]%invitor_dropped. unfold createUser.
    rewrite Hfull, Hless. simpl. by rewrite !lookup_delete_ne.
  - intros result s Hok Ht Hs Hid.
    destruct (createUser_cases io (JObj o) db)
      as [[e He]|[[He _]|(email & password & code & _ & _ & _ & _ & _ & Hcode & _ & _
                          & _ & Heq)]];
      [by rewrite He in Hok..|].
    rewrite Heq. simpl. rewrite lookup_insert_eq. eexists. split; [done|].
    rewrite hashPassword_fields by done.
    destruct (newUser_fields email password code) as (_ & _ & _ & _ & _ & ->).
    revert Hcode. unfold invitor. rewrite Ht, Hs, Hid. by intros [= <-].
Qed.

Lemma createUser_keeps_unique io data db :
  unique_emails db → unique_emails (db_after (createUser io data db)).
Proof.
  intros Huniq.
  destruct (createUser_cases io data db)
    as [[e ->]|[[-> _]|(email & password & code & _ & _ & _ & _ & _ & _ & _ & Hid
                        & Hfree & ->)]];
    [done..|].
  simpl. set (u := hashPassword (newUser email password code)).
  assert (u !! "email" = Some (JStr email)) as Hemail.
  { unfold u. rewrite hashPassword_fields by done.
    by destruct (newUser_fields email password code) as (-> & _). }
  clearbody u.
  intros k1 k2 d1 d2 e H1 H2 He1 He2.
  destruct (decide (k1 = new_id io)) as [->|Hk1];
    destruct (decide (k2 = new_id io)) as [->|Hk2]; [done|..].
  - rewrite lookup_insert_eq in H1. rewrite lookup_insert_ne in H2 by done.
    injection H1 as <-. rewrite Hemail in He1. injection He1 as <-.
    by destruct (findOne_email_None _ _ _ _ Hfree H2).
  - rewrite lookup_insert_eq in H2. rewrite lookup_insert_ne in H1 by done.
    injection H2 as <-. rewrite Hemail in He2. injection He2 as <-.
    by destruct (findOne_email_None _ _ _ _ Hfree H1).
  - rewrite lookup_insert_ne in H1, H2 by done. by eapply Huniq.
Qed.

End CreateUserMore.

Lemma createUser_invitor_witness :
  createUser (H := test_double) (calm id_b)
    (signup_with (lit "c@d.com") "secret" (JNum (2 ^ 77))) db_a
  = createUser (H := test_double) (calm id_b)
      (JObj (list_to_map [("email", JStr (lit "c@d.com"));
                          ("password", JStr (lit "secret"))])) db_a.
Proof.
  destruct (createUser_invitor (H := test_double) (calm id_b)
              (list_to_map [("email", JStr (lit "c@d.com"));
                            ("password", JStr (lit "secret"));
                            ("code", JNum (2 ^ 77))]) db_a) as [Hdrop _].
  etrans; [apply Hdrop|reflexivity].
  right. eexists. split; reflexivity.
Defined.

Example createUser_code_number :
  toString (JNum (2 ^ 77)) = Some (lit "1.5111572745182865e+23").
Proof. reflexivity. Qed.

Example createUser_code_own_toString :
  createUser (H := test_double) (calm id_b)
    (signup_with (lit "c@d.com") "secret" (JObj {[ "toString" := JNum 1 ]})) db_a
  = raise db_a.
Proof. reflexivity. Qed.
(** ** Authentication, once more *)

Section FindUserMore.
Context `{Collaborators}.

(** Every call of [findUser], by what it leaves behind. *)
Lemma findUser_cases io email password db :
  (db_after (findUser io email password db) = db
   ∧ ∀ result, events (findUser io email password db) = [Callback_ok result] →
       ∃ e id u, email = JStr e ∧ findOne_email (trim e) db = Some (id, u)
                 ∧ loose_eq (field u "gender") erkek = false
                 ∧ loose_eq (field u "gender") kadin = false
                 ∧ getUser (Some (id, u)) = [Callback_ok result])
  ∨ (∃ e id u,
       email = JStr e ∧ findOne_email (trim e) db = Some (id, u)
       ∧ (loose_eq (field u "gender") erkek = true
          ∨ loose_eq (field u "gender") kadin = true)
       ∧ findUser io email password db =
           let u' := <["gender" := JStr (if loose_eq (field u "gender") erkek
                                        then lit "male" else lit "female")]> u in
           {| db_after := <[id := u']> db; events := getUser (Some (id, u')) |}).
Proof.
  destruct (truthy email) eqn:He; cycle 1.
  { left. unfold findUser. by rewrite He. }
  destruct (truthy password) eqn:Hp; cycle 1.
  { left. unfold findUser. by rewrite He, Hp. }
  destruct email as [| |?|?|e|?|?];
    try (left; unfold findUser; by rewrite He, Hp).
  destruct (isEmail e) eqn:Hmail; cycle 1.
  { left. unfold findUser. by rewrite He, Hp, Hmail. }
  destruct (findOne_fails io) eqn:Hio.
  { left. unfold findUser. by rewrite He, Hp, Hmail, Hio. }
  destruct (findOne_email (trim e) db) as [[id u]|] eqn:Hfind; cycle 1.
  { left. unfold findUser. by rewrite He, Hp, Hmail, Hio, Hfind. }
  destruct password as [| |?|?|p|?|?];
    try (left; unfold findUser; by rewrite He, Hp, Hmail, Hio, Hfind).
  destruct (verifyPassword (trim p) (field u "password")) eqn:Hver; cycle 1.
  { left. unfold findUser. by rewrite He, Hp, Hmail, Hio, Hfind, Hver. }
  simpl in He, Hp. apply negb_true_iff, bool_decide_eq_false in He, Hp.
  rewrite (findUser_verified io e p db id u) by done.
  destruct (loose_eq (field u "gender") erkek) eqn:Herkek;
    [|destruct (loose_eq (field u "gender") kadin) eqn:Hkadin].
  - assert (truthy (field u "gender") = true) as ->.
    { destruct (field u "gender") as [| |?|?|[]|?|?]; done. }
    simpl. destruct (update_fails io); [by left|].
    right. exists e, id, u. rewrite Herkek. auto.
  - assert (truthy (field u "gender") = true) as ->.
    { destruct (field u "gender") as [| |?|?|[]|?|?]; done. }
    simpl. destruct (update_fails io); [by left|].
    right. exists e, id, u. rewrite Herkek, Hkadin. auto.
  - rewrite andb_false_r. left. split; [done|]. intros result Hres.
    by exists e, id, u.
Qed.

Lemma findUser_same_on io email password db :
  same_on (λ f, f ≠ "gender") db (db_after (findUser io email password db)).
Proof.
  destruct (findUser_cases io email password db)
    as [[-> _]|(e & id & u & -> & Hfind & Hlegacy & ->)].
  - apply same_on_refl.
  - apply findOne_email_Some in Hfind as [Hu _]. cbv zeta. simpl.
    apply (same_on_insert _ _ _ u); [done|]. intros f Hf.
    by rewrite lookup_insert_ne.
Qed.

(** The frame of [findUser]: whatever the arguments, no document is added or
    removed and every field other than [gender] reads as before; a changed
    document is one whose gender compared equal to ['erkek'] or ['kadın'] and
    is now ['male'], respectively ['female']; and a call that changes the
    collection is a call that succeeds. *)
Theorem findUser_frame io email password db :
  same_on (λ f, f ≠ "gender") db (db_after (findUser io email password db))
  ∧ (∀ k u u', db !! k = Some u →
       db_after (findUser io email password db) !! k = Some u' → u' ≠ u →
       (loose_eq (field u "gender") erkek = true
        ∧ u' = <["gender" := JStr (lit "male")]> u)
       ∨ (loose_eq (field u "gender") kadin = true
          ∧ u' = <["gender" := JStr (lit "female")]> u))
  ∧ (db_after (findUser io email password db) ≠ db →
     ∃ result, events (findUser io email password db) = [Callback_ok result]).
Proof.
  destruct (findUser_cases io email password db)
    as [[-> _]|(e & id & u & -> & Hfind & Hlegacy & ->)].
  - split; [apply same_on_refl|]. split; [|done].
    intros k u u' Hu Hu'. rewrite Hu in Hu'. by injection Hu' as <-.
  - apply findOne_email_Some in Hfind as [Hu _]. cbv zeta. simpl.
    split; [|split].
    + apply (same_on_insert _ _ _ u); [done|]. intros f Hf.
      by rewrite lookup_insert_ne.
    + intros k u0 u' Hu0 Hu' Hne. destruct (decide (id = k)) as [<-|Hk].
      * rewrite lookup_insert_eq in Hu'. rewrite Hu in Hu0.
        injection Hu0 as <-. injection Hu' as <-.
        destruct (loose_eq (field u "gender") erkek); [by left|].
        destruct Hlegacy as [|Hkadin]; [done|]. by right.
      * rewrite lookup_insert_ne in Hu' by done. rewrite Hu0 in Hu'.
        by injection Hu' as <-.
    + intros _. by eexists.
Qed.

Lemma findOne_email_unique e db id u :
  unique_emails db → db !! id = Some u → u !! "email" = Some (JStr e) →
  findOne_email e db = Some (id, u).
Proof.
  intros Huniq Hu He.
  destruct (findOne_email e db) as [[id' u']|] eqn:Hf.
  - apply findOne_email_Some in Hf as [Hu' He'].
    assert (id' = id) as -> by by eapply Huniq.
    rewrite Hu in Hu'. by injection Hu' as <-.
  - by destruct (findOne_email_None _ _ _ _ Hf Hu).
Qed.

(** The gender is normalized once.  In a collection with unique addresses,
    after a [findUser] that succeeded, [findUser] with the same address and
    password changes nothing, asks for no update, and returns the same
    user. *)
Theorem findUser_again io1 io2 email password db result :
  unique_emails db →
  events (findUser io1 email password db) = [Callback_ok result] →
  findOne_fails io2 = false →
  findUser io2 email password (db_after (findUser io1 email password db))
  = {| db_after := db_after (findUser io1 email password db);
       events := [Callback_ok result] |}.
Proof.
  intros Huniq Hok Hio.
  destruct (findUser_success _ _ _ _ _ Hok)
    as (e & p & id & u & -> & -> & He & Hp & Hmail & _ & Hfind & Hver).
  destruct (findUser_cases io1 (JStr e) (JStr p) db)
    as [[Hdb Hres]|(e' & id' & u' & [= <-] & Hfind' & Hlegacy & Heq)].
  - destruct (Hres _ Hok) as (e' & id' & u' & [= <-] & Hfind' & H1 & H2 & Hget).
    rewrite Hfind in Hfind'. injection Hfind' as <- <-.
    rewrite Hdb. rewrite (findUser_verified io2 e p db id u) by done.
    by rewrite H1, H2, andb_false_r, Hget.
  - rewrite Hfind in Hfind'. injection Hfind' as <- <-.
    apply findOne_email_Some in Hfind as [Hu Hemail].
    cbv zeta in Heq.
    set (g := JStr (if loose_eq (field u "gender") erkek
                    then lit "male" else lit "female")) in Heq.
    assert (loose_eq g erkek = false ∧ loose_eq g kadin = false) as [H1 H2].
    { unfold g. by destruct (loose_eq (field u "gender") erkek). }
    assert (field (<["gender" := g]> u) "gender" = g) as Hg.
    { unfold field. by rewrite lookup_insert_eq. }
    clearbody g. rewrite Heq in Hok |- *.
    change (getUser (Some (id, <["gender" := g]> u)) = [Callback_ok result]) in Hok.
    change (db_after {| db_after := <[id := <["gender" := g]> u]> db;
                        events := getUser (Some (id, <["gender" := g]> u)) |})
      with (<[id := <["gender" := g]> u]> db).
    rewrite (findUser_verified io2 e p _ id (<["gender" := g]> u)); try done.
    + by rewrite Hg, H1, H2, andb_false_r, Hok.
    + apply findOne_email_unique.
      * intros k1 k2 d1 d2 a Hk1 Hk2 Ha1 Ha2.
        assert (∀ k d, <[id := <["gender" := g]> u]> db !! k = Some d →
                       ∃ d0, db !! k = Some d0 ∧ d0 !! "email" = d !! "email")
          as Hback.
        { intros k d. destruct (decide (id = k)) as [<-|Hk].
          - rewrite lookup_insert_eq. intros [= <-]. exists u.
            by rewrite lookup_insert_ne.
          - rewrite lookup_insert_ne by done. intros Hd. by exists d. }
        destruct (Hback _ _ Hk1) as (c1 & Hc1 & Hmail1).
        destruct (Hback _ _ Hk2) as (c2 & Hc2 & Hmail2).
        apply (Huniq k1 k2 c1 c2 a); congruence.
      * apply lookup_insert_eq.
      * by rewrite lookup_insert_ne.
    + unfold field. by rewrite lookup_insert_ne.
Qed.

End FindUserMore.

Lemma findUser_again_witness :
  db_after
    (findUser (H := test_double) update_down (JStr (lit "a@b.com"))
       (JStr (lit "secret"))
       (db_after (findUser (H := test_double) (calm id_a) (JStr (lit "a@b.com"))
                    (JStr (lit "secret")) db_erkek)))
  = db_after (findUser (H := test_double) (calm id_a) (JStr (lit "a@b.com"))
                (JStr (lit "secret")) db_erkek).
Proof.
  assert (unique_emails db_erkek) as Huniq.
  { intros k1 k2 d1 d2 e H1 H2 _ _. unfold db_erkek in H1, H2.
    apply lookup_singleton_Some in H1 as [<- _].
    by apply lookup_singleton_Some in H2 as [<- _]. }
  eassert (events (findUser (H := test_double) (calm id_a) (JStr (lit "a@b.com"))
                     (JStr (lit "secret")) db_erkek) = [Callback_ok _]) as Hok
    by reflexivity.
  by rewrite (findUser_again (H := test_double) (calm id_a) update_down
                _ _ db_erkek _ Huniq Hok eq_refl).
Defined.

(** ** Profile update, once more *)

Section UpdateUserMore.
Context `{Collaborators}.

Lemma updateUser_same_on io id data db :
  same_on (λ f, f ∉ ["name"; "phone"; "city"; "town"])
    db (db_after (updateUser io id data db)).
Proof.
  destruct (updateUser_cases io id data db)
    as [(-> & _)|(k & u & u' & _ & Hu & Hkeep & ->)].
  - apply same_on_refl.
  - simpl. by apply (same_on_insert _ _ _ u).
Qed.

(** As the source stands, [updateUser] cannot change what an account reads:
    only a string passes its first test, a string has none of the fields
    [name], [phone], [city], [town], so the update writes back the stored
    name and phone.  Whatever the arguments, the documents are the same ones
    afterwards and every field of every document reads as before. *)
Theorem updateUser_changes_nothing io id data db :
  ∀ k,
    match db !! k, db_after (updateUser io id data db) !! k with
    | Some u, Some u' => ∀ f, field u' f = field u f
    | None, None => True
    | _, _ => False
    end.
Proof.
  intros k. unfold updateUser.
  destruct (truthy id); [|simpl; by destruct (db !! k)].
  destruct (toString id) as [s|]; [|simpl; by destruct (db !! k)].
  destruct (_ || _) eqn:Hguard; [simpl; by destruct (db !! k)|].
  destruct data as [| |?|?|d|?|?];
    try (simpl in Hguard; by rewrite !orb_true_r in Hguard).
  unfold updateUser_lookup, findById.
  destruct (ObjectId (JStr s)) as [key|]; [|simpl; by destruct (db !! k)].
  destruct (findById_fails io); [simpl; by destruct (db !! k)|]. simpl.
  destruct (db !! key) as [u|] eqn:Hu;
    [|simpl; by destruct (db !! k)].
  simpl. unfold findByIdAndUpdate.
  destruct (update_fails io); [simpl; by destruct (db !! k)|].
  rewrite Hu. simpl. destruct (decide (k = key)) as [->|Hk].
  - rewrite Hu, lookup_insert_eq. intros f. unfold field.
    destruct (decide (f = "name")) as [->|Hname]; [by rewrite lookup_insert_eq|].
    rewrite lookup_insert_ne by done.
    destruct (decide (f = "phone")) as [->|Hphone]; [by rewrite lookup_insert_eq|].
    by rewrite lookup_insert_ne.
  - rewrite lookup_insert_ne by done. by destruct (db !! k).
Qed.

End UpdateUserMore.
(** ** Lookup by identifier *)

Section LookupMore.
Context `{Collaborators}.

(** [getUserById] of a string that is a well-formed identifier and that
    [ObjectId] reads, when the lookup does not fail. *)
Lemma getUserById_string io err id db k :
  id ≠ [] → isMongoId id = true → ObjectId (JStr id) = Some k →
  findById_fails io = false →
  getUserById io err (JStr id) db =
    {| db_after := db;
       events := [Callback_ok (from_option (λ d, document (k, d)) JNull
                                 (db !! k))] |}.
Proof.
  intros Hne Hid Hk Hio. unfold getUserById, findById. simpl.
  rewrite bool_decide_eq_false_2 by done. simpl. rewrite Hid, Hk, Hio. simpl.
  by destruct (db !! k).
Qed.

(** [getUserById] reads and never writes; and a well-formed identifier that
    no document has is no error to it: the callback gets [null] for the user
    and no error, not [document_not_found].  A well-formed identifier that
    [ObjectId] cannot read makes it throw, and the callback is not
    invoked. *)
Theorem getUserById_absent io err id db :
  db_after (getUserById io err id db) = db
  ∧ (Callback_err document_not_found ∉ events (getUserById io err id db))
  ∧ (∀ s k, truthy id = true → toString id = Some s → isMongoId s = true →
            ObjectId id = Some k → findById_fails io = false → db !! k = None →
            events (getUserById io err id db) = [Callback_ok JNull])
  ∧ (∀ s, truthy id = true → toString id = Some s → isMongoId s = true →
          ObjectId id = None → getUserById io err id db = throw db).
Proof.
  split; [|split; [|split]].
  - unfold getUserById. destruct (truthy id); [|done].
    destruct (toString id); [|done]. destruct (isMongoId _); [|done].
    destruct (ObjectId id); [|done]. by destruct (findById _ _ _) as [[] ?].
  - unfold getUserById. destruct (truthy id); simpl;
      [|by intros [= ]%list_elem_of_singleton].
    destruct (toString id); [|by intros [= ]%list_elem_of_singleton].
    destruct (isMongoId _); simpl; [|by intros [= ]%list_elem_of_singleton].
    destruct (ObjectId id); [|by intros [= ]%list_elem_of_singleton].
    destruct (findById _ _ _) as [[] ?]; by intros [= ]%list_elem_of_singleton.
  - intros s k Ht Hs Hid Hk Hio Hnone. unfold getUserById, findById.
    rewrite Ht, Hs. simpl. rewrite Hid, Hk, Hio. simpl. by rewrite Hnone.
  - intros s Ht Hs Hid Hk. unfold getUserById.
    rewrite Ht, Hs. simpl. by rewrite Hid, Hk.
Qed.

(** What [createUser] returns and what [getUserById] returns differ by the
    secret.  After a [createUser] that succeeded, the user it returned has no
    [password] field, while [getUserById] with the new identifier returns the
    document with, as [password], the hash that was stored.  (The identifier
    a document prints as is taken to parse back to it.) *)
Theorem createUser_getUserById io1 io2 err data db email password result :
  ObjectId (JStr (new_id io1)) = Some (new_id io1) → new_id io1 ≠ [] →
  isMongoId (new_id io1) = true → findById_fails io2 = false →
  get data "email" = JStr email → get data "password" = JStr password →
  events (createUser io1 data db) = [Callback_ok result] →
  (∃ o, result = JObj o ∧ o !! "password" = None
        ∧ o !! "_id" = Some (JStr (new_id io1)))
  ∧ ∃ o', events (getUserById io2 err (JStr (new_id io1))
                    (db_after (createUser io1 data db)))
          = [Callback_ok (JObj o')]
          ∧ o' !! "password" = Some (JStr (hash password))
          ∧ o' !! "email" = Some (JStr email).
Proof.
  intros Hround Hne Hid Hio He Hp Hok.
  destruct (createUser_success _ _ _ _ _ _ He Hp Hok)
    as (code & _ & _ & _ & _ & _ & _ & Heq).
  rewrite Heq in Hok |- *. simpl db_after.
  change (getUser (Some (new_id io1, hashPassword (newUser email password code)))
          = [Callback_ok result]) in Hok.
  split.
  - injection Hok as <-. eexists. split; [done|].
    split; [rewrite lookup_insert_ne by done; apply lookup_delete_eq|].
    apply lookup_insert_eq.
  - rewrite (getUserById_string _ _ _ _ (new_id io1)) by done.
    rewrite lookup_insert_eq.
    eexists. split; [done|]. unfold document. simpl.
    rewrite !lookup_insert_ne by done.
    rewrite hashPassword_password, hashPassword_fields by done.
    by destruct (newUser_fields email password code) as (-> & _).
Qed.

End LookupMore.

Lemma getUserById_absent_witness :
  events (getUserById (H := test_double) (calm id_a) JNull (JStr id_b) db_a)
  = [Callback_ok JNull].
Proof.
  destruct (getUserById_absent (H := test_double) (calm id_a) JNull (JStr id_b) db_a)
    as (_ & _ & Habsent & _).
  apply (Habsent id_b id_b); reflexivity.
Defined.

Example getUserById_throws :
  getUserById (H := test_double) (calm id_a) JNull
    (JStr (lit "0x74c3442b4e90001c72b747")) db_a
  = throw db_a.
Proof. reflexivity. Qed.

Example getUserById_number :
  getUserById (H := test_double) (calm id_a) JNull
    (JNum 123456789012345678901234) db_a
  = fail db_a bad_request.
Proof. reflexivity. Qed.

Lemma createUser_getUserById_witness :
  ∃ o', events (getUserById (H := test_double) (calm id_a) JNull (JStr id_a)
                  (db_after (createUser (H := test_double) (calm id_a)
                               (signup "secret") ∅)))
        = [Callback_ok (JObj o')]
        ∧ o' !! "password" = Some (JStr (36%N :: lit "secret"))
        ∧ o' !! "email" = Some (JStr (lit "a@b.com")).
Proof.
  assert (id_a ≠ []) as Hne by done.
  eassert (events (createUser (H := test_double) (calm id_a) (signup "secret") ∅)
           = [Callback_ok _]) as Hok by reflexivity.
  assert (isMongoId (Collaborators := test_double) id_a = true) as Hid by reflexivity.
  destruct (createUser_getUserById (H := test_double) (calm id_a) (calm id_a) JNull
              (signup "secret") ∅ (lit "a@b.com") (lit "secret") _
              eq_refl Hne Hid eq_refl eq_refl eq_refl Hok) as [_ Hraw].
  exact Hraw.
Defined.
(** ** The life of an account *)

Section Lifecycle.
Context `{Collaborators}.

(** Created, then completed, once.  After a [createUser] that succeeded,
    [completeUser] with the new identifier and a valid payload succeeds when
    lookup and update do not fail, and leaves the account completed with the
    email and the password hash it had; the same call again is answered with
    [already_authenticated] and changes nothing.  (The identifier a document
    prints as is taken to parse back to it.) *)
Theorem createUser_completeUser io1 io2 io3 data profile db result :
  ObjectId (JStr (new_id io1)) = Some (new_id io1) →
  events (createUser io1 data db) = [Callback_ok result] →
  valid_payload (JStr (new_id io1)) profile = true →
  findById_fails io2 = false → update_fails io2 = false →
  findById_fails io3 = false →
  let db1 := db_after (createUser io1 data db) in
  let db2 := db_after (completeUser io2 (JStr (new_id io1)) profile db1) in
  events (completeUser io2 (JStr (new_id io1)) profile db1) = [Callback_ok JUndefined]
  ∧ (∃ u1 u2, db1 !! new_id io1 = Some u1 ∧ db2 !! new_id io1 = Some u2
              ∧ completed_profile u2
              ∧ u2 !! "email" = u1 !! "email"
              ∧ u2 !! "password" = u1 !! "password")
  ∧ completeUser io3 (JStr (new_id io1)) profile db2 = fail db2 already_authenticated.
Proof.
  intros Hround Hok Hvalid Hio2 Hup2 Hio3 db1 db2.
  assert (identifier (JStr (new_id io1)) = Some (new_id io1)) as Hk by done.
  destruct (createUser_cases io1 data db)
    as [[e He]|[[He _]|(email & password & code & _ & _ & _ & _ & _ & _ & _ & _ & _
                        & Heq)]];
    [by rewrite He in Hok..|].
  set (u1 := hashPassword (newUser email password code)) in Heq.
  assert (field u1 "completed" = JBool false) as Hfresh.
  { unfold field, u1. rewrite hashPassword_fields by done.
    by destruct (newUser_fields email password code) as (_ & _ & _ & -> & _). }
  clearbody u1.
  assert (db1 !! new_id io1 = Some u1) as Hu1.
  { unfold db1. rewrite Heq. apply lookup_insert_eq. }
  assert (account io2 (JStr (new_id io1)) db1 = Some u1) as Ha.
  { apply account_Some. by exists (new_id io1). }
  destruct (completeUser_passes io2 (JStr (new_id io1)) profile db1 Hvalid)
    as (s & phone & n & err & country & Hs & _ & _ & _ & _ & _ & Hcomplete).
  assert (events (completeUser io2 (JStr (new_id io1)) profile db1)
          = [Callback_ok JUndefined]) as Hdone.
  { rewrite Hcomplete, (resolved_update _ _ _ _ _ _ u1 Hs Hk Ha)
      by (by rewrite ?Hfresh).
    by rewrite Hup2. }
  split; [done|].
  destruct (completeUser_stored io2 (JStr (new_id io1)) profile db1 Hdone)
    as (k & u2 & Hk2 & Hu2 & Hprofile & _).
  rewrite Hk in Hk2. injection Hk2 as <-.
  pose proof (completeUser_same_on io2 (JStr (new_id io1)) profile db1 (new_id io1))
    as Hsame.
  rewrite Hu1 in Hsame. fold db2 in Hu2, Hsame. rewrite Hu2 in Hsame.
  split.
  - exists u1, u2. split; [done|]. split; [done|]. split; [done|].
    split; apply Hsame; intros Hin;
      repeat (apply elem_of_cons in Hin as [|Hin]; [done|]);
      by apply elem_of_nil in Hin.
  - destruct (completeUser_passes io3 (JStr (new_id io1)) profile db2 Hvalid)
      as (s' & phone' & n' & err' & country' & Hs' & _ & _ & _ & _ & _ & ->).
    apply (resolved_completed _ (JStr (new_id io1)) _ _ _ u2); [done| |].
    + apply account_Some. by exists (new_id io1).
    + destruct Hprofile as (_ & _ & _ & _ & Hc). unfold field. by rewrite Hc.
Qed.

End Lifecycle.

Lemma createUser_completeUser_witness :
  completeUser (H := test_double) (calm id_a) (JStr id_a) (profile (JNum 1995))
    (db_after (completeUser (H := test_double) (calm id_a) (JStr id_a)
                 (profile (JNum 1995))
                 (db_after (createUser (H := test_double) (calm id_a)
                              (signup "secret") ∅))))
  = fail (db_after (completeUser (H := test_double) (calm id_a) (JStr id_a)
                      (profile (JNum 1995))
                      (db_after (createUser (H := test_double) (calm id_a)
                                   (signup "secret") ∅))))
      already_authenticated.
Proof.
  eassert (events (createUser (H := test_double) (calm id_a) (signup "secret") ∅)
           = [Callback_ok _]) as Hok by reflexivity.
  assert (valid_payload (H := test_double) (JStr id_a) (profile (JNum 1995)) = true)
    as Hvalid by reflexivity.
  destruct (createUser_completeUser (H := test_double) (calm id_a) (calm id_a)
              (calm id_a) (signup "secret") (profile (JNum 1995)) ∅ _
              eq_refl Hok Hvalid eq_refl eq_refl eq_refl) as (_ & _ & Hagain).
  exact Hagain.
Defined.

(** ** The unique addresses are kept *)

Section Invariant.
Context `{Collaborators}.

(** No operation of the model breaks the uniqueness of the addresses: if no
    two documents share an email before a call of [createUser], [findUser],
    [completeUser], [updateUser] or [getUserById], whatever its arguments
    and whatever fails, none do after it. *)
Theorem unique_emails_invariant io err id data email password db :
  unique_emails db →
  unique_emails (db_after (createUser io data db))
  ∧ unique_emails (db_after (findUser io email password db))
  ∧ unique_emails (db_after (completeUser io id data db))
  ∧ unique_emails (db_after (updateUser io id data db))
  ∧ unique_emails (db_after (getUserById io err id db)).
Proof.
  intros Huniq. split; [by apply createUser_keeps_unique|].
  split; [by eapply same_on_unique_emails; [|apply findUser_same_on|]|].
  split.
  { eapply same_on_unique_emails; [|apply completeUser_same_on|done].
    intros Hin. repeat (apply elem_of_cons in Hin as [|Hin]; [done|]).
    by apply elem_of_nil in Hin. }
  split.
  { eapply same_on_unique_emails; [|apply updateUser_same_on|done].
    intros Hin. repeat (apply elem_of_cons in Hin as [|Hin]; [done|]).
    by apply elem_of_nil in Hin. }
  unfold getUserById. destruct (truthy id); [|done].
  destruct (toString id); [|done]. destruct (isMongoId _); [|done].
  destruct (ObjectId id); [|done]. by destruct (findById _ _ _) as [[] ?].
Qed.

End Invariant.

Lemma unique_emails_invariant_witness :
  unique_emails (db_after (createUser (H := test_double) (calm id_b)
                             (signup "another") db_a)).
Proof.
  assert (unique_emails db_a) as Huniq.
  { intros k1 k2 d1 d2 e H1 H2 _ _. unfold db_a in H1, H2.
    apply lookup_singleton_Some in H1 as [<- _].
    by apply lookup_singleton_Some in H2 as [<- _]. }
  destruct (unique_emails_invariant (H := test_double) (calm id_b) JNull JNull
              (signup "another") JNull JNull db_a Huniq) as [Hcreate _].
  exact Hcreate.
Defined.

(** ** The mail of updates *)

Section Mail.
Context `{Mailer}.

(** The addresses the mail of updates goes to. *)
Lemma recipients_spec db v :
  v ∈ map (λ u : user, field u.2 "email")
        (List.filter (λ u : user, completed_born_by 1996 u.2) (map_to_list db))
  ↔ ∃ k d, db !! k = Some d ∧ completed_born_by 1996 d = true
           ∧ field d "email" = v.
Proof.
  rewrite list_elem_of_In, in_map_iff. split.
  - intros ([k d] & <- & [Hin Hp]%filter_In).
    exists k, d. split; [|done].
    by apply elem_of_map_to_list, list_elem_of_In.
  - intros (k & d & Hd & Hp & <-). exists (k, d). split; [done|].
    apply filter_In. split; [|done].
    by apply list_elem_of_In, elem_of_map_to_list.
Qed.

Lemma send_updates_asked find_fails query db :
  truthy query = true → truthy (get query "updates") = true →
  loose_eq (get query "updates") (lit "mail") = true → find_fails = false →
  send_updates find_fails query db =
    let emailList :=
      map (λ u : user, field u.2 "email")
        (List.filter (λ u : user, completed_born_by 1996 u.2) (map_to_list db)) in
    {| mails := [(emailList, "marketyo")];
       answer := if sendMail emailList "marketyo"
                 then Redirect "/" else Redirect "/admin" |}.
Proof.
  intros Hq Hu Hmail ->. unfold send_updates, find. by rewrite Hq, Hu, Hmail.
Qed.

(** Who gets the mail of updates.  When the query asks for it
    ([updates] equal to ['mail']) and the search does not fail, one mail is
    asked for, with the template [marketyo], and an address is on its list
    exactly when it is the email of an account whose [completed] is true and
    whose [birth_year] is a number that is at most 1996; the answer is
    [/admin] when the mail went out and [/] when it did not. *)
Theorem send_updates_recipients query db :
  truthy query = true → truthy (get query "updates") = true →
  loose_eq (get query "updates") (lit "mail") = true →
  ∃ emailList,
    mails (send_updates false query db) = [(emailList, "marketyo")]
    ∧ (∀ v, v ∈ emailList ↔
            ∃ k d, db !! k = Some d
                   ∧ d !! "completed" = Some (JBool true)
                   ∧ (∃ n, d !! "birth_year" = Some (JNum n) ∧ n ≤ 1996)
                   ∧ field d "email" = v)
    ∧ answer (send_updates false query db)
      = if sendMail emailList "marketyo" then Redirect "/" else Redirect "/admin".
Proof.
  intros Hq Hu Hmail. rewrite send_updates_asked by done. cbv zeta. simpl.
  eexists. split; [done|]. split; [|done].
  intros v. rewrite recipients_spec. unfold completed_born_by.
  split.
  - intros (k & d & Hd & Hp & Hv). exists k, d. split; [done|].
    destruct (d !! "completed") as [[| |[]|?|?|?|?]|]; try done.
    destruct (d !! "birth_year") as [[| |?|n|?|?|?]|]; try done.
    repeat split; try done. exists n. split; [done|lia].
  - intros (k & d & Hd & Hc & (n & Hn & Hle) & Hv). exists k, d.
    rewrite Hc, Hn. repeat split; try done. lia.
Qed.

(** The mail of updates goes out only when asked for, and [/admin] is the
    answer only to a mail that went out.  Whatever the query, a mail is
    asked for only if [updates] compares equal to ['mail'] and the search
    did not fail, never more than one, and the answer is [/admin] only if
    one was asked for and sending it reported no error. *)
Theorem send_updates_guard find_fails query db :
  (mails (send_updates find_fails query db) ≠ [] →
     loose_eq (get query "updates") (lit "mail") = true ∧ find_fails = false)
  ∧ (length (mails (send_updates find_fails query db)) ≤ 1)%nat
  ∧ (answer (send_updates find_fails query db) = Redirect "/admin" →
     ∃ emailList, mails (send_updates find_fails query db) = [(emailList, "marketyo")]
                  ∧ sendMail emailList "marketyo" = false).
Proof.
  assert (∀ P Q : Prop,
            (mails {| mails := []; answer := Redirect "/" |} ≠ [] → P)
            ∧ (length (mails {| mails := []; answer := Redirect "/" |}) ≤ 1)%nat
            ∧ (answer {| mails := []; answer := Redirect "/" |} = Redirect "/admin"
               → Q)) as Hquiet.
  { intros P Q. simpl. split; [done|]. split; [lia|done]. }
  unfold send_updates, find.
  destruct (truthy query); [|apply Hquiet].
  destruct (truthy (get query "updates")); [|apply Hquiet].
  destruct (loose_eq (get query "updates") (lit "mail")); [|apply Hquiet].
  destruct find_fails; [apply Hquiet|]. simpl.
  split; [done|]. split; [lia|].
  destruct (sendMail _ _) eqn:Hsent; [done|]. intros _. by eexists.
Qed.

End Mail.

Lemma send_updates_recipients_witness :
  ∃ emailList,
    mails (send_updates (H := delivering) false
             (JObj {[ "updates" := JStr (lit "mail") ]}) db_done)
    = [(emailList, "marketyo")]
    ∧ JStr (lit "a@b.com") ∈ emailList.
Proof.
  set (query := JObj {[ "updates" := JStr (lit "mail") ]}).
  assert (truthy (get query "updates") = true) as Hu by reflexivity.
  assert (loose_eq (get query "updates") (lit "mail") = true) as Hmail
    by reflexivity.
  destruct (send_updates_recipients (H := delivering) query db_done
              eq_refl Hu Hmail) as (l & Hmails & Hwho & _).
  exists l. split; [exact Hmails|]. apply Hwho.
  exists id_a, account_done. split; [reflexivity|]. split; [reflexivity|].
  split; [exists 1995; split; [reflexivity|lia]|reflexivity].
Defined.

Section MailAndLife.
Context `{Collaborators} `{Mailer}.

Lemma send_updates_mails find_fails query db l t :
  mails (send_updates find_fails query db) = [(l, t)] →
  ∀ v, v ∈ l ↔ ∃ k d, db !! k = Some d ∧ completed_born_by 1996 d = true
                      ∧ field d "email" = v.
Proof.
  unfold send_updates, find.
  destruct (_ || _); [done|]. destruct find_fails; [done|]. simpl.
  intros [= <- _] v. apply recipients_spec.
Qed.

Lemma field_string d f s : field d f = JStr s → d !! f = Some (JStr s).
Proof. unfold field. destruct (d !! f) as [?|]; simpl; intros Hv; by simplify_eq. Qed.

(** From sign-up to the mailing list.  An account that [createUser] made is
    not on the list of the mail of updates as long as it is not completed;
    once [completeUser] succeeded on it, its email is on the list exactly
    when the birth year it was completed with is at most 1996.  (The
    identifier a document prints as is taken to parse back to it.) *)
Theorem mail_after_completion io1 io2 ff1 ff2 data profile query db
    email password result n l1 l2 t1 t2 :
  ObjectId (JStr (new_id io1)) = Some (new_id io1) →
  get data "email" = JStr email → get data "password" = JStr password →
  events (createUser io1 data db) = [Callback_ok result] →
  events (completeUser io2 (JStr (new_id io1)) profile
            (db_after (createUser io1 data db))) = [Callback_ok JUndefined] →
  parseInt (get profile "birth_year") = Some n →
  mails (send_updates ff1 query (db_after (createUser io1 data db))) = [(l1, t1)] →
  mails (send_updates ff2 query
           (db_after (completeUser io2 (JStr (new_id io1)) profile
                        (db_after (createUser io1 data db))))) = [(l2, t2)] →
  (JStr email ∉ l1) ∧ (JStr email ∈ l2 ↔ n ≤ 1996).
Proof.
  intros Hround He Hp Hok Hdone Hparse Hl1 Hl2.
  destruct (createUser_success _ _ _ _ _ _ He Hp Hok)
    as (code & _ & _ & _ & _ & _ & Hfree & Heq).
  set (u1 := hashPassword (newUser email password code)) in Heq.
  assert (u1 !! "completed" = Some (JBool false)) as Hfresh.
  { unfold u1. rewrite hashPassword_fields by done.
    by destruct (newUser_fields email password code) as (_ & _ & _ & -> & _). }
  assert (u1 !! "email" = Some (JStr email)) as Hemail.
  { unfold u1. rewrite hashPassword_fields by done.
    by destruct (newUser_fields email password code) as (-> & _). }
  clearbody u1. rewrite Heq in Hdone, Hl1, Hl2. simpl db_after in Hdone, Hl1, Hl2.
  assert (∀ k d, db !! k = Some d → field d "email" ≠ JStr email) as Hothers.
  { intros k d Hd Hf. apply field_string in Hf.
    by destruct (findOne_email_None _ _ _ _ Hfree Hd). }
  split.
  - rewrite (send_updates_mails _ _ _ _ _ Hl1).
    intros (k & d & Hd & Hc & Hf).
    destruct (decide (new_id io1 = k)) as [<-|Hk].
    + rewrite lookup_insert_eq in Hd. injection Hd as <-.
      unfold completed_born_by in Hc. by rewrite Hfresh in Hc.
    + rewrite lookup_insert_ne in Hd by done. by destruct (Hothers k d).
  - destruct (completeUser_cases io2 (JStr (new_id io1)) profile
                (<[new_id io1 := u1]> db))
      as [[_ Hno]|(k & u & name & phone & gender & n' & err & country & _ & _ & _ & _
                   & _ & _ & _ & Hparse' & _ & _ & Hid & Hu & _ & Hcomplete)]; [done|].
    rewrite Hparse in Hparse'. injection Hparse' as <-.
    assert (k = new_id io1) as ->.
    { revert Hid. unfold identifier. simpl. rewrite Hround. by intros [= <-]. }
    rewrite lookup_insert_eq in Hu. injection Hu as <-.
    rewrite Hcomplete in Hl2. simpl db_after in Hl2.
    rewrite insert_insert_eq in Hl2.
    set (u2 := completeUser_set profile (JStr (split_join phone)) n country u1) in Hl2.
    assert (u2 !! "completed" = Some (JBool true)
            ∧ u2 !! "birth_year" = Some (JNum n)
            ∧ u2 !! "email" = Some (JStr email)) as (Hc2 & Hb2 & He2).
    { unfold u2, completeUser_set. by simplify_map_eq. }
    clearbody u2.
    rewrite (send_updates_mails _ _ _ _ _ Hl2). split.
    + intros (k & d & Hd & Hc & Hf).
      destruct (decide (new_id io1 = k)) as [<-|Hk].
      * rewrite lookup_insert_eq in Hd. injection Hd as <-.
        unfold completed_born_by in Hc. rewrite Hc2, Hb2 in Hc. lia.
      * rewrite lookup_insert_ne in Hd by done. by destruct (Hothers k d).
    + intros Hn. exists (new_id io1), u2. rewrite lookup_insert_eq.
      split; [done|]. unfold completed_born_by, field. rewrite Hc2, Hb2, He2.
      split; [lia|done].
Qed.

End MailAndLife.

Lemma mail_after_completion_witness :
  ∃ emailList,
    mails (send_updates (H := delivering) false
             (JObj {[ "updates" := JStr (lit "mail") ]})
             (db_after (completeUser (H := test_double) (calm id_a) (JStr id_a)
                          (profile (JNum 1995))
                          (db_after (createUser (H := test_double) (calm id_a)
                                       (signup "secret") ∅)))))
    = [(emailList, "marketyo")]
    ∧ JStr (lit "a@b.com") ∈ emailList.
Proof.
  set (query := JObj {[ "updates" := JStr (lit "mail") ]}).
  eassert (events (createUser (H := test_double) (calm id_a) (signup "secret") ∅)
           = [Callback_ok _]) as Hok by reflexivity.
  assert (events (completeUser (H := test_double) (calm id_a) (JStr id_a)
                    (profile (JNum 1995))
                    (db_after (createUser (H := test_double) (calm id_a)
                                 (signup "secret") ∅)))
          = [Callback_ok JUndefined]) as Hdone by reflexivity.
  assert (parseInt (get (profile (JNum 1995)) "birth_year") = Some 1995) as Hparse
    by reflexivity.
  eassert (mails (send_updates (H := delivering) false query
                    (db_after (createUser (H := test_double) (calm id_a)
                                 (signup "secret") ∅))) = [(_, "marketyo")]) as Hl1
    by reflexivity.
  eassert (mails (send_updates (H := delivering) false query
                    (db_after (completeUser (H := test_double) (calm id_a) (JStr id_a)
                                 (profile (JNum 1995))
                                 (db_after (createUser (H := test_double) (calm id_a)
                                              (signup "secret") ∅)))))
           = [(_, "marketyo")]) as Hl2
    by reflexivity.
  destruct (mail_after_completion (H := test_double) (H0 := delivering)
              (calm id_a) (calm id_a) false false (signup "secret")
              (profile (JNum 1995)) query ∅ (lit "a@b.com") (lit "secret")
              _ 1995 _ _ _ _ eq_refl eq_refl eq_refl Hok Hdone Hparse Hl1 Hl2)
    as [_ Hon].
  eexists. split; [exact Hl2|]. apply Hon. lia.
Defined.
